(** * tomodachi-testcontainers: container lifecycle manager, image builder
      and probe engine

    A shallow embedding of [src/tomodachi_testcontainers/containers/common.py]
    (classes [DockerContainer] and [EphemeralDockerImage]) together with the
    probe primitives of [tomodachi_testcontainers.pytest.async_probes].

    Python values are embedded as follows.
    - [str] and [bytes] are both [string]: a [str] is held as its UTF-8
      encoding, so [bytes.decode()] is a validity check.
    - [None]-able values are [option]s, with Python truthiness written out.
    - A [dict] used as a map is a [gmap].
    - A method is a function in the monad [M]: it takes the state (the
      object [self] and the ambient world) and returns an outcome (a value
      or a raised exception) with the state it leaves behind.  The state
      survives a raise, as the side effects of a Python call do. *)

From Stdlib Require Import ZArith String Ascii List Bool Lia.
From stdpp Require Import base option gmap strings list.

Local Open Scope string_scope.
Local Open Scope list_scope.

(* ===================================================================== *)
(** * Python: exceptions, outcomes, truthiness, string helpers            *)
(* ===================================================================== *)

Module Py.

(** The exception classes the modelled code and its collaborators raise.
    [KeyboardInterrupt] and [SystemExit] derive from [BaseException]
    only; all the others derive from [Exception]. *)
Inductive exc_class : Set :=
| AttributeError | KeyError | IndexError | TypeError | ValueError | RuntimeError
| AssertionError | UnicodeDecodeError | FileNotFoundError
| CalledProcessError
| APIError | NotFound | ImageNotFound | BuildError
| KeyboardInterrupt | SystemExit.

Record exn : Set := Exn { exc_type : exc_class; exc_msg : string }.

Definition is_Exception (e : exn) : bool :=
  match exc_type e with
  | KeyboardInterrupt | SystemExit => false
  | _ => true
  end.

Inductive outcome (A : Type) : Type :=
| Ok (a : A)
| Raise (e : exn).
Arguments Ok {A} a.
Arguments Raise {A} e.

Definition is_ok {A} (r : outcome A) : bool :=
  match r with Ok _ => true | Raise _ => false end.

(** [bool(s)] for a [str]: the empty string is falsy. *)
Definition truthy_str (s : string) : bool :=
  match s with EmptyString => false | String _ _ => true end.

(** [bool(x)] for an [Optional[str]]: [None] and [""] are falsy. *)
Definition truthy (x : option string) : bool :=
  match x with
  | None => false
  | Some s => truthy_str s
  end.

(** [a or b] on [Optional[str]] operands. *)
Definition or_ (a b : option string) : option string :=
  if truthy a then a else b.

(** [s.split(sep)] for a one-character separator: never the empty list. *)
Fixpoint split (sep : ascii) (s : string) : list string :=
  match s with
  | EmptyString => [EmptyString]
  | String c s' =>
      if Ascii.eqb c sep then EmptyString :: split sep s'
      else match split sep s' with
           | hd :: tl => String c hd :: tl
           | [] => [String c EmptyString]
           end
  end.

Definition byte_val (c : ascii) : N := N_of_ascii c.

Definition in_range (lo hi : N) (c : ascii) : bool :=
  (lo <=? byte_val c)%N && (byte_val c <=? hi)%N.

Definition cont (c : ascii) : bool := in_range 128 191 c.

(** Well-formed UTF-8 (no overlong forms, no surrogates, at most
    U+10FFFF), the condition under which [bytes.decode()] succeeds. *)
Fixpoint utf8_valid (s : string) : bool :=
  match s with
  | EmptyString => true
  | String b0 r0 =>
      if in_range 0 127 b0 then utf8_valid r0
      else if in_range 194 223 b0 then
        match r0 with
        | String b1 r1 => cont b1 && utf8_valid r1
        | _ => false
        end
      else if in_range 224 239 b0 then
        match r0 with
        | String b1 (String b2 r2) =>
            (if (byte_val b0 =? 224)%N then in_range 160 191 b1
             else if (byte_val b0 =? 237)%N then in_range 128 159 b1
             else cont b1)
            && cont b2 && utf8_valid r2
        | _ => false
        end
      else if in_range 240 244 b0 then
        match r0 with
        | String b1 (String b2 (String b3 r3)) =>
            (if (byte_val b0 =? 240)%N then in_range 144 191 b1
             else if (byte_val b0 =? 244)%N then in_range 128 143 b1
             else cont b1)
            && cont b2 && cont b3 && utf8_valid r3
        | _ => false
        end
      else false
  end.

(** [b.decode()] / [b.decode("utf-8")]. *)
Definition decode (b : string) : outcome string :=
  if utf8_valid b then Ok b
  else Raise (Exn UnicodeDecodeError "'utf-8' codec can't decode bytes").

Definition bytes_of (l : list N) : string :=
  string_of_list_ascii (map ascii_of_N l).

(** The characters [str.strip()] removes, in UTF-8: U+0009..U+000D,
    U+001C..U+0020, U+0085, U+00A0, U+1680, U+2000..U+200A, U+2028,
    U+2029, U+202F, U+205F, U+3000. *)
Definition whitespace : list string :=
  map bytes_of
    ([[9]; [10]; [11]; [12]; [13]; [28]; [29]; [30]; [31]; [32];
      [194; 133]; [194; 160]; [225; 154; 128]]
     ++ map (fun k => [226; 128; k])
          [128; 129; 130; 131; 132; 133; 134; 135; 136; 137; 138;
           168; 169; 175]
     ++ [[226; 129; 159]; [227; 128; 128]])%N.

Fixpoint drop_prefix (p s : string) : option string :=
  match p, s with
  | EmptyString, _ => Some s
  | String a p', String b s' =>
      if Ascii.eqb a b then drop_prefix p' s' else None
  | String _ _, EmptyString => None
  end.

Fixpoint first_some {A B} (f : A -> option B) (l : list A) : option B :=
  match l with
  | [] => None
  | x :: l' => match f x with Some y => Some y | None => first_some f l' end
  end.

Fixpoint lstrip_with (ws : list string) (fuel : nat) (s : string) : string :=
  match fuel with
  | O => s
  | S fuel' =>
      match first_some (fun w => drop_prefix w s) ws with
      | Some s' => lstrip_with ws fuel' s'
      | None => s
      end
  end.

Definition lstrip (s : string) : string :=
  lstrip_with whitespace (String.length s) s.

Definition rstrip (s : string) : string :=
  String.rev
    (lstrip_with (map String.rev whitespace) (String.length s) (String.rev s)).

(** [s.strip()]. *)
Definition strip (s : string) : string := rstrip (lstrip s).

(** ** The monad of methods: state passing with exceptions *)

Definition M (S A : Type) : Type := S -> outcome A * S.

Definition ret {S A} (a : A) : M S A := fun s => (Ok a, s).

Definition bind {S A B} (m : M S A) (k : A -> M S B) : M S B :=
  fun s =>
    match m s with
    | (Ok a, s') => k a s'
    | (Raise e, s') => (Raise e, s')
    end.

(** [raise e]. *)
Definition raise {S A} (e : exn) : M S A := fun s => (Raise e, s).

Definition gets {S A} (f : S -> A) : M S A := fun s => (Ok (f s), s).

Definition modify {S} (f : S -> S) : M S unit := fun s => (Ok tt, f s).

(** A pure computation that may raise. *)
Definition lift {S A} (r : outcome A) : M S A := fun s => (r, s).

(** [try: body / except Exception: handler]; inside the handler the
    caught exception is at hand, so a bare [raise] is [raise e].  An
    exception that is not an [Exception] passes through untouched. *)
Definition try_except {S A} (body : M S A) (handler : exn -> M S A) : M S A :=
  fun s =>
    match body s with
    | (Ok a, s') => (Ok a, s')
    | (Raise e, s') =>
        if is_Exception e then handler e s' else (Raise e, s')
    end.

(** [for x in l: f x]. *)
Fixpoint for_each {S A} (l : list A) (f : A -> M S unit) : M S unit :=
  match l with
  | [] => ret tt
  | x :: l' => bind (f x) (fun _ => for_each l' f)
  end.

(** [with mgr as v: body v].  [exit_] receives the exception in flight,
    if any, and answers whether to swallow it; an exception raised by
    [exit_] itself replaces the one in flight.  The statement yields
    [None] when the body's exception was swallowed. *)
Definition with_ {S A B} (enter : M S A) (exit_ : option exn -> M S bool)
    (body : A -> M S B) : M S (option B) :=
  fun s =>
    match enter s with
    | (Raise e, s1) => (Raise e, s1)
    | (Ok v, s1) =>
        match body v s1 with
        | (Ok b, s2) =>
            match exit_ None s2 with
            | (Ok _, s3) => (Ok (Some b), s3)
            | (Raise e', s3) => (Raise e', s3)
            end
        | (Raise e, s2) =>
            match exit_ (Some e) s2 with
            | (Ok true, s3) => (Ok None, s3)
            | (Ok false, s3) => (Raise e, s3)
            | (Raise e', s3) => (Raise e', s3)
            end
        end
    end.

End Py.

Export Py.

#[global] Instance M_ret {S} : MRet (M S) := fun A a => ret a.
#[global] Instance M_bind {S} : MBind (M S) := fun A B k m => bind m k.

(** [pathlib.Path]: an object that defines neither [__bool__] nor
    [__len__], so every path is truthy; [str(p)] is never empty. *)
Record Path : Set := { fspath : string }.

Definition str_of_path (p : Path) : string := fspath p.

(* ===================================================================== *)
(** * The external collaborators: container engine, host, logger         *)
(* ===================================================================== *)

Module Docker.

(** A [docker.models.containers.Container] handle. *)
Record Container : Set := { c_id : string; c_short_id : string }.

(** A [docker.models.images.Image] handle. *)
Record Image : Set := { image_id : string }.

(** One entry of [container["NetworkSettings"]["Networks"]]. *)
Record NetworkAttrs : Set := { IPAddress : string; Gateway : string }.

(** What [DockerClient.get_container] returns, as far as the code reads
    it: the per-network attributes, keyed by network name. *)
Record ContainerInfo : Type := { Networks : gmap string NetworkAttrs }.

(** The keyword arguments of [DockerClient.run]. *)
Record RunArgs : Type := {
  run_image : string;
  run_command : string;
  run_detach : bool;
  run_environment : gmap string string;
  run_ports : gmap string string;
  run_name : option string;
  run_volumes : gmap string string;
  run_kwargs : gmap string string
}.

(** The keyword arguments of [client.images.build]. *)
Record BuildArgs : Set := {
  build_dockerfile : option string;
  build_path : string;
  build_target : option string;
  build_forcerm : bool
}.

(** A finished child process. *)
Record CompletedProcess : Set := {
  returncode : Z;
  stdout : string;
  stderr : string
}.

(** The state-changing requests the code sends out, in the order sent. *)
Inductive Call : Type :=
| CallRun (a : RunArgs)
| CallRemove (c : Container) (force v : bool)
| CallRestart (c : Container)
| CallImagesBuild (a : BuildArgs)
| CallImagesRemove (image : string)
| CallExec (argv : list string).

(** The control API of the engine and the process spawner of the host,
    over a state [E] of their own.  Queries leave [E] alone; requests
    return the state they leave behind, also when they raise. *)
Class Engine (E : Type) : Type := {
  (* DockerClient.host() *)
  host : E -> option string;
  (* DockerClient.get_container(id) *)
  get_container : string -> E -> outcome ContainerInfo;
  (* DockerClient.run with keyword arguments *)
  run : RunArgs -> E -> outcome Container * E;
  (* container.logs(timestamps=...) *)
  logs : Container -> bool -> E -> outcome string;
  (* container.remove(force=..., v=...) *)
  remove : Container -> bool -> bool -> E -> outcome unit * E;
  (* container.restart() *)
  restart : Container -> E -> outcome unit * E;
  (* client.images.build with keyword arguments, first component *)
  images_build : BuildArgs -> E -> outcome Image * E;
  (* client.images.get(name) *)
  images_get : string -> E -> outcome Image;
  (* client.images.remove(image=...) *)
  images_remove : string -> E -> outcome unit * E;
  (* spawning argv and waiting for it *)
  exec : list string -> E -> outcome CompletedProcess * E
}.

End Docker.

Export Docker.

(** A line handed to [logging.Logger.info]. *)
Record LogRecord : Set := { logger_name : string; message : string }.

(** Everything outside the object at hand. *)
Record World (E : Type) : Type := {
  engine : E;
  (* os.environ *)
  environ : gmap string string;
  (* testcontainers.core.utils.inside_container() *)
  dockerenv : bool;
  (* what the loggers have emitted, oldest first *)
  log_sink : list LogRecord;
  (* the requests sent so far, oldest first *)
  calls : list Call
}.
Arguments engine {E} _.
Arguments environ {E} _.
Arguments dockerenv {E} _.
Arguments log_sink {E} _.
Arguments calls {E} _.

(** The state a method of an object of class [O] runs in. *)
Record State (E O : Type) : Type := { self : O; world : World E }.
Arguments self {E O} _.
Arguments world {E O} _.

Section Ambient.
Context {E O : Type} `{!Engine E}.

Definition set_self (f : O -> O) (s : State E O) : State E O :=
  {| self := f (self s); world := world s |}.

Definition emit (r : LogRecord) (s : State E O) : State E O :=
  {| self := self s;
     world := {| engine := engine (world s);
                 environ := environ (world s);
                 dockerenv := dockerenv (world s);
                 log_sink := log_sink (world s) ++ [r];
                 calls := calls (world s) |} |}.

Definition sent (c : Call) (e : E) (s : State E O) : State E O :=
  {| self := self s;
     world := {| engine := e;
                 environ := environ (world s);
                 dockerenv := dockerenv (world s);
                 log_sink := log_sink (world s);
                 calls := calls (world s) ++ [c] |} |}.

(** [os.getenv(name)]. *)
Definition getenv (name : string) : M (State E O) (option string) :=
  gets (fun s => environ (world s) !! name).

(** [inside_container()]. *)
Definition inside_container : M (State E O) bool :=
  gets (fun s => dockerenv (world s)).

(** [logging.getLogger(name).info(msg)]. *)
Definition logger_info (name msg : string) : M (State E O) unit :=
  modify (emit {| logger_name := name; message := msg |}).

(** A query of the engine. *)
Definition query {A} (f : E -> outcome A) : M (State E O) A :=
  fun s => (f (engine (world s)), s).

(** A request to the engine: recorded, then carried out. *)
Definition request {A} (c : Call) (op : E -> outcome A * E) : M (State E O) A :=
  fun s => let (r, e') := op (engine (world s)) in (r, sent c e' s).

(** [subprocess.run(cmd, shell=False, stdout=PIPE, stderr=PIPE, check=...)]. *)
Definition subprocess_run (cmd : list string) (check : bool)
  : M (State E O) CompletedProcess :=
  p ← request (CallExec cmd) (exec cmd);
  if check && negb (returncode p =? 0)%Z
  then raise (Exn CalledProcessError "returned non-zero exit status")
  else mret p.

End Ambient.

(* ===================================================================== *)
(** * class DockerContainer                                               *)
(* ===================================================================== *)

Module DockerContainer.

(** The attributes of a manager: the ones [__init__] sets here and the
    ones the testcontainers base class keeps. *)
Record t : Type := {
  (* self.__class__.__name__, the name of self.logger *)
  class_name : string;
  network : string;
  image : string;
  _command : option string;
  env : gmap string string;
  ports : gmap string string;
  _name : option string;
  volumes : gmap string string;
  _kwargs : gmap string string;
  _container : option Container
}.

Definition set_container (c : option Container) (o : t) : t :=
  {| class_name := class_name o; network := network o; image := image o;
     _command := _command o; env := env o; ports := ports o;
     _name := _name o; volumes := volumes o; _kwargs := _kwargs o;
     _container := c |}.

(** The keywords [_start] passes to [run] by name; one of them again in
    [**self._kwargs] makes the call itself a [TypeError]. *)
Definition named_keywords : list string :=
  ["image"; "command"; "detach"; "environment"; "ports"; "name"; "volumes"].

Definition repeated_keyword (kwargs : gmap string string) : option string :=
  List.find (fun k => bool_decide (is_Some (kwargs !! k))) named_keywords.

Definition no_attribute (attr : string) : exn :=
  Exn AttributeError ("'NoneType' object has no attribute '" +:+ attr +:+ "'").

Section Methods.
Context {E : Type} `{!Engine E}.

Abbreviation St := (State E t).

(** [__init__(self, *args, network=None, **kwargs)] for a class named
    [cls].  [image] is the image the base class receives, positionally or
    as [image=]; [kwargs] are the keyword arguments of the call beside
    [network=].  The base class [__init__(image, docker_client_kw=None,
    **kwargs)] takes [image=] and [docker_client_kw=] for itself, starts
    from empty settings and keeps the other keyword arguments it is
    given, [network=self.network] among them. *)
Definition __init__ (cls image : string) (network : option string)
    (kwargs : gmap string string) (w : World E) : t :=
  let network :=
    default "bridge"
      (or_ (or_ network (environ w !! "TESTCONTAINER_DOCKER_NETWORK"))
           (Some "bridge")) in
  {| class_name := cls; network := network; image := image;
     _command := None; env := ∅; ports := ∅; _name := None; volumes := ∅;
     _kwargs := <["network" := network]>
                  (delete "image" (delete "docker_client_kw" kwargs));
     _container := None |}.

(** The abstract [log_message_on_container_start] of the class at hand. *)
Variable log_message_on_container_start : M St string.

(** [stop(force, delete_volume)] of the testcontainers base class. *)
Variable super_stop : bool -> bool -> M St unit.

Definition get_wrapped_container : M St (option Container) :=
  gets (fun s => _container (self s)).

(** The attribute [attr] of [self.get_wrapped_container()]. *)
Definition wrapped (attr : string) : M St Container :=
  c ← get_wrapped_container;
  match c with
  | Some c => mret c
  | None => raise (no_attribute attr)
  end.

Definition get_container_internal_ip : M St string :=
  c ← wrapped "id";
  container ← query (get_container (c_id c));
  net ← gets (fun s => network (self s));
  match Networks container !! net with
  | Some attrs => mret (IPAddress attrs)
  | None => raise (Exn KeyError net)
  end.

Definition get_container_gateway_ip : M St string :=
  c ← wrapped "id";
  container ← query (get_container (c_id c));
  net ← gets (fun s => network (self s));
  match Networks container !! net with
  | Some attrs => mret (Gateway attrs)
  | None => raise (Exn KeyError net)
  end.

Definition get_container_host_ip : M St string :=
  h ← query (fun e => Ok (host e));
  match h with
  | Some (String _ _ as host) =>
      inside ← inside_container;
      override ← (if inside then getenv "DOCKER_HOST" else mret None);
      if inside && negb (truthy override) then
        gateway_ip ← get_container_gateway_ip;
        if String.eqb gateway_ip host then get_container_internal_ip
        else mret gateway_ip
      else mret host
  | _ => mret "localhost"
  end.

(** The call [self.get_docker_client().run(image=..., ..., **self._kwargs)]. *)
Definition run_args (o : t) : RunArgs :=
  {| run_image := image o;
     run_command := (if truthy (_command o) then default "" (_command o) else "");
     run_detach := true;
     run_environment := env o;
     run_ports := ports o;
     run_name := _name o;
     run_volumes := volumes o;
     run_kwargs := _kwargs o |}.

Definition _start : M St unit :=
  o ← gets self;
  logger_info (class_name o) ("Pulling image: " +:+ image o);;
  match repeated_keyword (_kwargs o) with
  | Some k =>
      raise (Exn TypeError ("got multiple values for keyword argument '" +:+ k +:+ "'"))
  | None =>
      c ← request (CallRun (run_args o)) (run (run_args o));
      modify (set_self (set_container (Some c)));;
      logger_info (class_name o) ("Container started: " +:+ c_short_id c)
  end.

Definition _forward_container_logs_to_logger : M St unit :=
  o ← gets self;
  match _container o with
  | Some container =>
      raw ← query (logs container true);
      text ← lift (decode raw);
      for_each (split "010" text) (fun log => logger_info (class_name o) log)
  | None => mret tt
  end.

(** The records [_forward_container_logs_to_logger] emits for a log text. *)
Definition forwarded (o : t) (text : string) : list LogRecord :=
  map (fun line => {| logger_name := class_name o; message := line |})
    (split "010" text).

(** The body of the [try] in [start]. *)
Definition start_body : M St unit :=
  _start;;
  message ← log_message_on_container_start;
  o ← gets self;
  if truthy_str message then logger_info (class_name o) message else mret tt.

Definition start : M St unit :=
  try_except start_body
    (fun e => _forward_container_logs_to_logger;; raise e).

Definition _stop : M St unit :=
  super_stop true true;;
  modify (set_self (set_container None)).

Definition stop : M St unit :=
  _forward_container_logs_to_logger;;
  _stop.

Definition restart : M St unit :=
  c ← wrapped "restart";
  request (CallRestart c) (Docker.restart c).

(** [stop()] called [n] times in a row. *)
Fixpoint stop_times (n : nat) : M St unit :=
  match n with
  | O => mret tt
  | S n' => stop;; stop_times n'
  end.

End Methods.
End DockerContainer.

(* ===================================================================== *)
(** * The base class of DockerContainer                                   *)
(* ===================================================================== *)

Module Testcontainers.

Section Base.
Context {E : Type} `{!Engine E}.

(** [stop(force, delete_volume)] of [testcontainers.core.container.
    DockerContainer], which [_stop] calls through [super()]:
    [self.get_wrapped_container().remove(force=force, v=delete_volume)].
    It has no guard of its own, so without a wrapped container the
    attribute [remove] is looked up on [None]. *)
Definition stop (force delete_volume : bool) : M (State E DockerContainer.t) unit :=
  c ← DockerContainer.wrapped "remove";
  request (CallRemove c force delete_volume) (remove c force delete_volume).

End Base.
End Testcontainers.

(* ===================================================================== *)
(** * class EphemeralDockerImage                                          *)
(* ===================================================================== *)

Module EphemeralDockerImage.

Record t : Set := {
  dockerfile : option string;
  context : string;
  target : option string;
  (* unset until build_image has run *)
  image : option Image
}.

Definition set_image (i : Image) (o : t) : t :=
  {| dockerfile := dockerfile o; context := context o; target := target o;
     image := Some i |}.

Definition __init__ (dockerfile context : option Path) (target : option string) : t :=
  {| dockerfile := str_of_path <$> dockerfile;
     context := default "." (str_of_path <$> context);
     target := target;
     image := None |}.

Section Methods.
Context {E : Type} `{!Engine E}.

Abbreviation St := (State E t).

(** The command line [_build_with_docker_buildkit] assembles. *)
Definition buildkit_cmd (o : t) : list string :=
  let cmd := ["docker"; "build"; "-q"; "--rm=true"] in
  let cmd := if truthy (dockerfile o)
             then cmd ++ ["-f"; default "" (dockerfile o)] else cmd in
  let cmd := if truthy (target o)
             then cmd ++ ["--target"; default "" (target o)] else cmd in
  cmd ++ [context o].

Definition _build_with_docker_buildkit : M St Image :=
  o ← gets self;
  result ← subprocess_run (buildkit_cmd o) true;
  text ← lift (decode (stdout result));
  let image_id := strip text in
  query (images_get image_id).

(** The keywords [_build_with_docker_client] passes to [images.build]. *)
Definition build_args (o : t) : BuildArgs :=
  {| build_dockerfile := dockerfile o;
     build_path := context o;
     build_target := target o;
     build_forcerm := true |}.

Definition _build_with_docker_client : M St Image :=
  o ← gets self;
  request (CallImagesBuild (build_args o)) (images_build (build_args o)).

Definition build_image : M St unit :=
  toggle ← getenv "DOCKER_BUILDKIT";
  if truthy toggle then
    i ← _build_with_docker_buildkit;
    modify (set_self (set_image i))
  else
    i ← _build_with_docker_client;
    modify (set_self (set_image i)).

(** The state after the request [c] left the engine in [e'] and the
    manager took [i] as its image. *)
Definition built (c : Call) (e' : E) (i : Image) (s : State E t) : State E t :=
  set_self (set_image i) (sent c e' s).

(** [self.image], an [AttributeError] while it is unset. *)
Definition get_image : M St Image :=
  o ← gets self;
  match image o with
  | Some i => mret i
  | None =>
      raise (Exn AttributeError
               "'EphemeralDockerImage' object has no attribute 'image'")
  end.

Definition remove_image : M St unit :=
  i ← get_image;
  request (CallImagesRemove (image_id i)) (images_remove (image_id i)).

Definition __enter__ : M St Image :=
  build_image;;
  get_image.

(** [__exit__] returns [None], which swallows nothing. *)
Definition __exit__ (exc : option exn) : M St bool :=
  remove_image;;
  mret false.

(** The body of a [with] block: code that is handed the image and acts on
    the world; the manager object is not in its reach. *)
Definition scope_body (B : Type) : Type := Image -> World E -> outcome B * World E.

Definition run_body {B} (body : scope_body B) (i : Image) : M St B :=
  fun s => let (r, w) := body i (world s) in (r, {| self := self s; world := w |}).

(** [with EphemeralDockerImage(...) as image: body]. *)
Definition scoped {B} (body : scope_body B) : M St (option B) :=
  with_ __enter__ __exit__ (run_body body).

End Methods.
End EphemeralDockerImage.

(* ===================================================================== *)
(** * The probe engine                                                    *)
(* ===================================================================== *)

Module AsyncProbes.

Section Probes.
Context {S A : Type}.

(** What a probe did, in order: a finished invocation of the check (the
    clock when it finished, what it gave) or a suspension. *)
Inductive Event : Type :=
| Checked (finished : nat) (r : outcome A)
| Slept (d : nat).

(** The state of a probe: the state the check works on, a clock in ticks
    and the events so far. *)
Record Run : Type := { user : S; clock : nat; trace : list Event }.

(** A check: from its state to what it gives, the state it leaves and the
    ticks it took, at least one.  Synchronous and awaited checks are alike
    here. *)
Definition Check : Type := S -> outcome A * S * positive.

Definition invoke (check : Check) (s : Run) : outcome A * Run :=
  let '(r, u, d) := check (user s) in
  (r, {| user := u; clock := clock s + Pos.to_nat d;
         trace := trace s ++ [Checked (clock s + Pos.to_nat d) r] |}).

Definition sleep (d : nat) (s : Run) : Run :=
  {| user := user s; clock := clock s + d; trace := trace s ++ [Slept d] |}.

(** Modelled from the spec: the loop of [probe_until], whose source file
    (tomodachi_testcontainers/pytest/async_probes.py) is not at hand.  A
    success returns at once; a failure is raised once the time elapsed
    since [start] exceeds [stop_after], and is followed by a suspension of
    [probe_interval] and a retry otherwise.  [fuel] bounds the attempts;
    [None] is out of fuel. *)
Fixpoint probe_until_loop (fuel : nat) (check : Check)
    (probe_interval stop_after start : nat) (s : Run) : option (outcome A) * Run :=
  match fuel with
  | O => (None, s)
  | Datatypes.S fuel' =>
      match invoke check s with
      | (Ok v, s1) => (Some (Ok v), s1)
      | (Raise e, s1) =>
          if (stop_after <? clock s1 - start)%nat then (Some (Raise e), s1)
          else probe_until_loop fuel' check probe_interval stop_after start
                 (sleep probe_interval s1)
      end
  end.

(** More attempts than fit in the budget: every attempt takes a tick. *)
Definition attempts_bound (stop_after : nat) : nat := stop_after + 2.

(** Modelled from the spec: [probe_until(check, probe_interval, stop_after)],
    whose source file is not at hand. *)
Definition probe_until (check : Check) (probe_interval stop_after : nat)
    (s : Run) : option (outcome A) * Run :=
  probe_until_loop (attempts_bound stop_after) check
    probe_interval stop_after (clock s) s.

(** Modelled from the spec: the loop of [probe_during_interval], whose
    source file is not at hand.  A failure is raised at once; a success
    ends the probe once the time elapsed since [start] exceeds
    [stop_after], and is followed by a suspension of [probe_interval] and
    another invocation otherwise. *)
Fixpoint probe_during_interval_loop (fuel : nat) (check : Check)
    (probe_interval stop_after start : nat) (s : Run) : option (outcome A) * Run :=
  match fuel with
  | O => (None, s)
  | Datatypes.S fuel' =>
      match invoke check s with
      | (Raise e, s1) => (Some (Raise e), s1)
      | (Ok v, s1) =>
          if (stop_after <? clock s1 - start)%nat then (Some (Ok v), s1)
          else probe_during_interval_loop fuel' check probe_interval stop_after
                 start (sleep probe_interval s1)
      end
  end.

(** Modelled from the spec:
    [probe_during_interval(check, probe_interval, stop_after)], whose
    source file is not at hand. *)
Definition probe_during_interval (check : Check) (probe_interval stop_after : nat)
    (s : Run) : option (outcome A) * Run :=
  probe_during_interval_loop (attempts_bound stop_after) check
    probe_interval stop_after (clock s) s.

(** The events of a [probe_until] that started at [start], what it gave
    and the clock at its end: failures within the budget, each followed by
    one suspension, then either a success or a failure past the budget. *)
Inductive until_run (probe_interval stop_after start : nat)
  : list Event -> outcome A -> nat -> Prop :=
| until_success t v :
    until_run probe_interval stop_after start [Checked t (Ok v)] (Ok v) t
| until_timeout t e :
    stop_after < t - start ->
    until_run probe_interval stop_after start [Checked t (Raise e)] (Raise e) t
| until_retry t e tr r t' :
    t - start <= stop_after ->
    until_run probe_interval stop_after start tr r t' ->
    until_run probe_interval stop_after start
      (Checked t (Raise e) :: Slept probe_interval :: tr) r t'.

(** The events of a [probe_during_interval]: successes within the window,
    each followed by one suspension, then either a failure or a success
    past the window. *)
Inductive during_run (probe_interval stop_after start : nat)
  : list Event -> outcome A -> nat -> Prop :=
| during_failure t e :
    during_run probe_interval stop_after start [Checked t (Raise e)] (Raise e) t
| during_complete t v :
    stop_after < t - start ->
    during_run probe_interval stop_after start [Checked t (Ok v)] (Ok v) t
| during_again t v tr r t' :
    t - start <= stop_after ->
    during_run probe_interval stop_after start tr r t' ->
    during_run probe_interval stop_after start
      (Checked t (Ok v) :: Slept probe_interval :: tr) r t'.

(** The check raises whatever state it is called in. *)
Definition always_fails (check : Check) : Prop :=
  forall u, exists e, (check u).1.1 = Raise e.

(** The check returns whatever state it is called in. *)
Definition always_passes (check : Check) : Prop :=
  forall u, exists v, (check u).1.1 = Ok v.

End Probes.

Arguments Event : clear implicits.
Arguments Run : clear implicits.
Arguments Check : clear implicits.

(** The checks of tests/pytest/test_async_probes.py: each call pops the
    head of [attempts] and takes one tick. *)
Definition assert_pop (attempts : list bool) : outcome bool * list bool * positive :=
  match attempts with
  | [] => (Raise (Exn IndexError "pop from empty list"), [], 1%positive)
  | true :: rest => (Ok true, rest, 1%positive)
  | false :: rest => (Raise (Exn AssertionError "assert False"), rest, 1%positive)
  end.

Definition value_error_on_false (attempts : list bool)
  : outcome bool * list bool * positive :=
  match attempts with
  | [] => (Raise (Exn IndexError "pop from empty list"), [], 1%positive)
  | true :: rest => (Ok true, rest, 1%positive)
  | false :: rest => (Raise (Exn ValueError "Something went wrong"), rest, 1%positive)
  end.

(** The check of test_probe_until__fails_and_reraises_exception. *)
Definition always_raising (u : unit) : outcome bool * unit * positive :=
  (Raise (Exn ValueError "Something went wrong"), u, 1%positive).

Definition fresh {S A} (u : S) : Run S A := {| user := u; clock := 0; trace := [] |}.

End AsyncProbes.

(* ===================================================================== *)
(** * class SNSSQSTestClient                                              *)
(* ===================================================================== *)

Module SNSSQS.

(** The exceptions of src/tomodachi_testcontainers/clients/snssqs.py and
    of the clients it wraps.  [QueueDoesNotExist] carries the code of the
    [ClientError] it was raised from. *)
Inductive error : Type :=
| TopicDoesNotExist (topic : string)
| QueueDoesNotExist (queue : string) (cause : string)
| ClientError (code : string)
| KeyError (key : string)
| OtherError (e : exn).

Inductive result (X : Type) : Type :=
| Done (x : X)
| Fail (err : error).
Arguments Done {X} x.
Arguments Fail {X} err.

(** One entry of [response["Messages"]] of [receive_message]. *)
Record ReceivedMessage : Set := { Body : string; ReceiptHandle : string }.

(** The keywords of [sns_client.publish]; [None] is a keyword left out. *)
Record PublishArgs : Type := {
  TopicArn : string;
  Message : string;
  MessageAttributes : option (gmap string string);
  MessageDeduplicationId : option string;
  MessageGroupId : option string
}.

(** The calls made on the two clients, in the order made. *)
Inductive Request : Type :=
| ListTopics
| CreateTopic (name : string) (attributes : gmap string string)
| Subscribe (topic_arn protocol endpoint : string) (attributes : gmap string string)
| Publish (args : PublishArgs)
| GetTopicAttributes (topic_arn : string)
| GetQueueUrl (queue_name : string)
| CreateQueue (queue_name : string) (attributes : gmap string string)
| GetQueueAttributes (queue_url : string) (attribute_names : list string)
| ReceiveMessage (queue_url : string) (max_number_of_messages : Z)
| DeleteMessage (queue_url receipt_handle : string).

(** The aiobotocore clients over a state [W] of the service, each call
    giving the part of its response the code reads. *)
Class Clients (W : Type) : Type := {
  (* [v["TopicArn"] for v in response["Topics"]] *)
  sns_list_topics : W -> result (list string) * W;
  (* response["TopicArn"] *)
  sns_create_topic : string -> gmap string string -> W -> result string * W;
  sns_subscribe : string -> string -> string -> gmap string string -> W -> result unit * W;
  sns_publish : PublishArgs -> W -> result unit * W;
  (* response["Attributes"] *)
  sns_get_topic_attributes : string -> W -> result (gmap string string) * W;
  (* response["QueueUrl"] *)
  sqs_get_queue_url : string -> W -> result string * W;
  sqs_create_queue : string -> gmap string string -> W -> result unit * W;
  (* response["Attributes"] *)
  sqs_get_queue_attributes : string -> list string -> W -> result (gmap string string) * W;
  (* response.get("Messages") *)
  sqs_receive_message : string -> Z -> W -> result (option (list ReceivedMessage)) * W;
  sqs_delete_message : string -> string -> W -> result unit * W
}.

(** The state a method of the test client runs in. *)
Record St (W : Type) : Type := { aws : W; requests : list Request }.
Arguments aws {W} _.
Arguments requests {W} _.

(** Methods of the test client: state passing with the errors above. *)
Definition A (W X : Type) : Type := St W -> result X * St W.

Definition done {W X} (x : X) : A W X := fun s => (Done x, s).

Definition fail {W X} (err : error) : A W X := fun s => (Fail err, s).

Definition and_then {W X Y} (m : A W X) (k : X -> A W Y) : A W Y :=
  fun s =>
    match m s with
    | (Done x, s') => k x s'
    | (Fail err, s') => (Fail err, s')
    end.

(** [await client.method(...)]: recorded, then carried out. *)
Definition call {W X} (r : Request) (op : W -> result X * W) : A W X :=
  fun s =>
    let (x, w) := op (aws s) in
    (x, {| aws := w; requests := requests s ++ [r] |}).

(** A pure computation that may raise. *)
Definition pure {W X} (r : result X) : A W X := fun s => (r, s).

(** [with suppress(C): return m] followed by [k]: what [m] returns is
    returned; an exception of class [C] is dropped and [k] runs; any
    other exception is raised. *)
Definition suppress_return {W X} (C : error -> bool) (m k : A W X) : A W X :=
  fun s =>
    match m s with
    | (Done x, s') => (Done x, s')
    | (Fail err, s') => if C err then k s' else (Fail err, s')
    end.

Definition is_TopicDoesNotExist (err : error) : bool :=
  match err with TopicDoesNotExist _ => true | _ => false end.

Definition is_QueueDoesNotExist (err : error) : bool :=
  match err with QueueDoesNotExist _ _ => true | _ => false end.

(** [s.endswith(suffix)]. *)
Definition endswith (s suffix : string) : bool :=
  String.prefix (String.rev suffix) (String.rev s).

(** [d[key]] on a response dictionary. *)
Definition item (d : gmap string string) (key : string) : result string :=
  match d !! key with
  | Some v => Done v
  | None => Fail (KeyError key)
  end.

Definition fifo_topic_attributes : gmap string string :=
  {[ "FifoTopic" := "true"; "ContentBasedDeduplication" := "false" ]}.

Definition fifo_queue_attributes : gmap string string :=
  {[ "FifoQueue" := "true"; "ContentBasedDeduplication" := "false" ]}.

(** [bool(d)] for an [Optional[Dict]]: [None] and the empty dictionary are
    falsy. *)
Definition truthy_dict (d : option (gmap string string)) : bool :=
  match d with
  | Some m => negb (bool_decide (m = ∅))
  | None => false
  end.

(** An envelope ([TomodachiSNSSQSEnvelope]) for data of type [D] and
    message types [P]: [build_message(service={}, topic, data)] and the
    component [[0]["data"]] of [parse_message(payload, proto_class)]. *)
Record Envelope (D P : Type) : Type := {
  build_message : string -> D -> result string;
  parse_message : string -> option P -> result D
}.
Arguments build_message {D P} _.
Arguments parse_message {D P} _.

Section Methods.
Context {W : Type} `{!Clients W}.
Context {D P : Type}.

(** [json.loads(body)["Message"]]. *)
Variable message_of_body : string -> result string.

(** [inspect.isclass(t) and issubclass(t, Message)]. *)
Variable is_message_class : P -> bool.

Notation "x <~ m ; k" := (and_then m (fun x => k))
  (at level 100, m at next level, right associativity).

Definition get_topic_arn (topic : string) : A W string :=
  topics <~ call ListTopics sns_list_topics;
  let topic_arn := List.find (fun arn => endswith arn topic) topics in
  if truthy topic_arn then done (default "" topic_arn)
  else fail (TopicDoesNotExist topic).

Definition get_topic_attributes (topic : string) : A W (gmap string string) :=
  topic_arn <~ get_topic_arn topic;
  call (GetTopicAttributes topic_arn) (sns_get_topic_attributes topic_arn).

Definition get_queue_url (queue : string) : A W string :=
  fun s =>
    match call (GetQueueUrl queue) (sqs_get_queue_url queue) s with
    | (Fail (ClientError code), s') => (Fail (QueueDoesNotExist queue code), s')
    | r => r
    end.

Definition get_queue_attributes (queue : string) (attributes : list string)
  : A W (gmap string string) :=
  queue_url <~ get_queue_url queue;
  call (GetQueueAttributes queue_url attributes)
    (sqs_get_queue_attributes queue_url attributes).

Definition get_queue_arn (queue : string) : A W string :=
  attributes <~ get_queue_attributes queue ["QueueArn"];
  pure (item attributes "QueueArn").

Definition create_topic (topic : string) (fifo : bool) : A W string :=
  suppress_return is_TopicDoesNotExist (get_topic_arn topic)
    (let topic_attributes := if fifo then fifo_topic_attributes else ∅ in
     call (CreateTopic topic topic_attributes)
       (sns_create_topic topic topic_attributes)).

Definition create_queue (queue : string) (fifo : bool) : A W string :=
  suppress_return is_QueueDoesNotExist (get_queue_arn queue)
    (let queue_attributes := if fifo then fifo_queue_attributes else ∅ in
     _ <~ call (CreateQueue queue queue_attributes)
            (sqs_create_queue queue queue_attributes);
     queue_attributes <~ get_queue_attributes queue ["QueueArn"];
     pure (item queue_attributes "QueueArn")).

Definition subscribe_to (topic queue : string)
    (subscribe_attributes : option (gmap string string)) (fifo : bool) : A W unit :=
  topic_arn <~ create_topic topic fifo;
  queue_arn <~ create_queue queue fifo;
  let attributes :=
    if truthy_dict subscribe_attributes then default ∅ subscribe_attributes else ∅ in
  call (Subscribe topic_arn "sqs" queue_arn attributes)
    (sns_subscribe topic_arn "sqs" queue_arn attributes).

(** The loop of [receive] over the messages received. *)
Fixpoint receive_each (envelope : Envelope D P) (queue_url : string)
    (proto_class : option P) (received : list ReceivedMessage) : A W (list D) :=
  match received with
  | [] => done []
  | received_message :: rest =>
      payload <~ pure (message_of_body (Body received_message));
      data <~ pure (parse_message envelope payload proto_class);
      _ <~ call (DeleteMessage queue_url (ReceiptHandle received_message))
             (sqs_delete_message queue_url (ReceiptHandle received_message));
      parsed <~ receive_each envelope queue_url proto_class rest;
      done (data :: parsed)
  end.

Definition receive (queue : string) (envelope : Envelope D P) (message_type : P)
    (max_messages : Z) : A W (list D) :=
  queue_url <~ get_queue_url queue;
  received_messages <~ call (ReceiveMessage queue_url max_messages)
                         (sqs_receive_message queue_url max_messages);
  match received_messages with
  | None | Some [] => done []
  | Some received_messages =>
      let proto_class :=
        if is_message_class message_type then Some message_type else None in
      receive_each envelope queue_url proto_class received_messages
  end.

(** The keywords [publish] hands to [sns_client.publish]. *)
Definition publish_args (topic_arn message : string)
    (message_attributes : option (gmap string string))
    (message_deduplication_id message_group_id : option string) : PublishArgs :=
  {| TopicArn := topic_arn;
     Message := message;
     MessageAttributes :=
       if truthy_dict message_attributes then message_attributes else None;
     MessageDeduplicationId :=
       if truthy message_deduplication_id then message_deduplication_id else None;
     MessageGroupId :=
       if truthy message_group_id then message_group_id else None |}.

Definition publish (topic : string) (data : D) (envelope : Envelope D P)
    (message_attributes : option (gmap string string))
    (message_deduplication_id message_group_id : option string) : A W unit :=
  topic_arn <~ get_topic_arn topic;
  message <~ pure (build_message envelope topic data);
  let args := publish_args topic_arn message message_attributes
                message_deduplication_id message_group_id in
  call (Publish args) (sns_publish args).

(** What [receive] makes of one received message: the payload read from
    its body, parsed by the envelope. *)
Definition parsed (envelope : Envelope D P) (proto_class : option P)
    (m : ReceivedMessage) : result D :=
  match message_of_body (Body m) with
  | Done payload => parse_message envelope payload proto_class
  | Fail err => Fail err
  end.

(** The state after the messages with the receipt handles [handles] were
    deleted from [queue_url], one call each, in order. *)
Definition after_deletes (queue_url : string) (handles : list string) (s : St W)
  : St W :=
  fold_left
    (fun s h => (call (DeleteMessage queue_url h) (sqs_delete_message queue_url h) s).2)
    handles s.

(** The state after the call [r], which left the service in [w]. *)
Definition called (r : Request) (w : W) (s : St W) : St W :=
  {| aws := w; requests := requests s ++ [r] |}.

End Methods.
End SNSSQS.

(* ===================================================================== *)
(** * A small engine to run the model on                                   *)
(* ===================================================================== *)

Module Sim.

Record SimImage : Set := {
  handle : Image;
  (* what a container of this image has written when [run] returns *)
  boot_output : string
}.

Record SimContainer : Type := {
  info : ContainerInfo;
  output : string;
  restarts : nat
}.

Record t : Type := {
  configured_host : option string;
  containers : gmap string SimContainer;
  images : gmap string SimImage;
  (* the image a build produces, if it succeeds *)
  builder : BuildArgs -> option string;
  (* what a command line exits with and prints *)
  cli : list string -> CompletedProcess
}.

Definition with_containers (cs : gmap string SimContainer) (e : t) : t :=
  {| configured_host := configured_host e; containers := cs;
     images := images e; builder := builder e; cli := cli e |}.

Definition with_images (imgs : gmap string SimImage) (e : t) : t :=
  {| configured_host := configured_host e; containers := containers e;
     images := imgs; builder := builder e; cli := cli e |}.

Definition not_found (what : string) : exn := Exn NotFound ("No such container: " +:+ what).

Definition sim_get_container (id : string) (e : t) : outcome ContainerInfo :=
  match containers e !! id with
  | Some c => Ok (info c)
  | None => Raise (Exn RuntimeError ("could not get container with id " +:+ id))
  end.

(** A new container is named after [name=] and attached to [network=]
    with fixed addresses. *)
Definition sim_run (a : RunArgs) (e : t) : outcome Container * t :=
  match images e !! run_image a with
  | None => (Raise (Exn ImageNotFound ("No such image: " +:+ run_image a)), e)
  | Some i =>
      let id := default "anonymous" (run_name a) in
      match containers e !! id with
      | Some _ => (Raise (Exn APIError ("Conflict. The container name is already in use: " +:+ id)), e)
      | None =>
          let nets : gmap string NetworkAttrs :=
            match run_kwargs a !! "network" with
            | Some n => {[ n := {| IPAddress := "172.17.0.2"; Gateway := "172.17.0.1" |} ]}
            | None => ∅
            end in
          (Ok {| c_id := id; c_short_id := id |},
           with_containers
             (<[ id := {| info := {| Networks := nets |};
                          output := boot_output i; restarts := 0 |} ]> (containers e)) e)
      end
  end.

Definition sim_logs (c : Container) (timestamps : bool) (e : t) : outcome string :=
  match containers e !! c_id c with
  | Some sc => Ok (output sc)
  | None => Raise (not_found (c_id c))
  end.

Definition sim_remove (c : Container) (force v : bool) (e : t) : outcome unit * t :=
  match containers e !! c_id c with
  | Some _ => (Ok tt, with_containers (delete (c_id c) (containers e)) e)
  | None => (Raise (not_found (c_id c)), e)
  end.

Definition sim_restart (c : Container) (e : t) : outcome unit * t :=
  match containers e !! c_id c with
  | Some sc =>
      (Ok tt,
       with_containers
         (<[ c_id c := {| info := info sc; output := output sc;
                          restarts := S (restarts sc) |} ]> (containers e)) e)
  | None => (Raise (not_found (c_id c)), e)
  end.

Definition sim_images_build (a : BuildArgs) (e : t) : outcome Image * t :=
  match builder e a with
  | Some id =>
      let i := {| image_id := id |} in
      (Ok i, with_images (<[ id := {| handle := i; boot_output := "" |} ]> (images e)) e)
  | None => (Raise (Exn BuildError "build failed"), e)
  end.

Definition sim_images_get (name : string) (e : t) : outcome Image :=
  match images e !! name with
  | Some i => Ok (handle i)
  | None => Raise (Exn ImageNotFound ("No such image: " +:+ name))
  end.

Definition sim_images_remove (name : string) (e : t) : outcome unit * t :=
  match images e !! name with
  | Some _ => (Ok tt, with_images (delete name (images e)) e)
  | None => (Raise (Exn ImageNotFound ("No such image: " +:+ name)), e)
  end.

Definition sim_exec (argv : list string) (e : t) : outcome CompletedProcess * t :=
  (Ok (cli e argv), e).

#[global] Instance sim_engine : Engine t := {|
  host := configured_host;
  get_container := sim_get_container;
  run := sim_run;
  logs := sim_logs;
  remove := sim_remove;
  restart := sim_restart;
  images_build := sim_images_build;
  images_get := sim_images_get;
  images_remove := sim_images_remove;
  exec := sim_exec
|}.

Definition alpine : SimImage :=
  {| handle := {| image_id := "alpine:latest" |}; boot_output := "" |}.

(** An engine reached over TCP at 172.17.0.1 that knows alpine, with a
    builder that builds every context and a command line that prints the
    identifier of alpine. *)
Definition engine0 : t :=
  {| configured_host := Some "172.17.0.1";
     containers := ∅;
     images := {[ "alpine:latest" := alpine ]};
     builder := fun a => Some ("sha256:" +:+ build_path a);
     cli := fun argv => {| returncode := 0; stdout := "alpine:latest
"; stderr := "" |} |}.

Definition world0 (e : t) (environ : gmap string string) (inside : bool) : World t :=
  {| engine := e; environ := environ; dockerenv := inside; log_sink := []; calls := [] |}.

End Sim.

(* ===================================================================== *)
(** * Scenarios on the small engine                                       *)
(* ===================================================================== *)

Module Scenario.

Import Sim.

Abbreviation CState := (State Sim.t DockerContainer.t).
Abbreviation IState := (State Sim.t EphemeralDockerImage.t).

(** [WorkingContainer] of tests/containers/common/test_docker_container.py,
    as constructed. *)
Definition working (w : World Sim.t) : CState :=
  {| self := DockerContainer.__init__ "WorkingContainer" "alpine:latest" None ∅ w;
     world := w |}.

Definition working_message : M CState string :=
  mret "Working container started".

(** A readiness message that cannot be computed. *)
Definition failing_message : M CState string :=
  raise (Exn RuntimeError "Container healthcheck failed").

Definition start_working : M CState unit :=
  DockerContainer.start working_message.

Definition stop_working : M CState unit :=
  DockerContainer.stop Testcontainers.stop.

(** The test process on the host, on a sibling container of the default
    bridge, and on a sibling container with a remote engine. *)
Definition on_host : World Sim.t := world0 engine0 ∅ false.

Definition in_sibling : World Sim.t := world0 engine0 ∅ true.

Definition remote_engine : Sim.t :=
  {| configured_host := Some "docker.example"; containers := ∅;
     images := images engine0; builder := builder engine0; cli := cli engine0 |}.

Definition in_sibling_remote : World Sim.t := world0 remote_engine ∅ true.

Definition in_sibling_with_override : World Sim.t :=
  world0 engine0 {[ "DOCKER_HOST" := "tcp://172.17.0.1:2375" ]} true.

Definition started (w : World Sim.t) : CState := (start_working (working w)).2.

(** An image whose containers write a byte that is not UTF-8. *)
Definition noisy : SimImage :=
  {| handle := {| image_id := "noisy:latest" |};
     boot_output := bytes_of [111; 107; 10; 255]%N |}.

Definition noisy_engine : Sim.t :=
  with_images (<[ "noisy:latest" := noisy ]> (images engine0)) engine0.

Definition noisy_container : CState :=
  let w := world0 noisy_engine ∅ false in
  {| self := DockerContainer.__init__ "NoisyContainer" "noisy:latest" None ∅ w;
     world := w |}.

(** The same container, started, with a readiness message that can be
    computed. *)
Definition noisy_started : CState :=
  (DockerContainer.start working_message noisy_container).2.

(** An image builder for the Dockerfile [/tmp/Dockerfile], and the worlds
    with the builder toggle off and on. *)
Definition hello_world : EphemeralDockerImage.t :=
  EphemeralDockerImage.__init__ (Some {| fspath := "/tmp/Dockerfile" |}) None None.

Definition release_build : EphemeralDockerImage.t :=
  EphemeralDockerImage.__init__ (Some {| fspath := "/tmp/Dockerfile" |})
    (Some {| fspath := "/src" |}) (Some "release").

Definition toggle_off : World Sim.t := world0 engine0 ∅ false.

Definition toggle_on : World Sim.t :=
  world0 engine0 {[ "DOCKER_BUILDKIT" := "1" ]} false.

Definition failing_cli_engine : Sim.t :=
  {| configured_host := configured_host engine0; containers := ∅;
     images := images engine0; builder := builder engine0;
     cli := fun argv => {| returncode := 1; stdout := ""; stderr := "failed to solve" |} |}.

(** Scope bodies: one that returns and one that raises. *)
Definition body_passes : EphemeralDockerImage.scope_body (E := Sim.t) bool :=
  fun i w => (Ok true, w).

Definition body_raises : EphemeralDockerImage.scope_body (E := Sim.t) bool :=
  fun i w => (Raise (Exn AssertionError "assert False"), w).

(** A manager for an image the engine does not know. *)
Definition missing_image : CState :=
  {| self := DockerContainer.__init__ "WorkingContainer" "missing:latest" None ∅ on_host;
     world := on_host |}.

(** An image whose containers have written two lines when [run] returns,
    and a started container of it. *)
Definition chatty : SimImage :=
  {| handle := {| image_id := "chatty:latest" |};
     boot_output := "ready
listening
" |}.

Definition chatty_world : World Sim.t :=
  world0 (with_images (<[ "chatty:latest" := chatty ]> (images engine0)) engine0)
    ∅ false.

Definition chatty_started : CState :=
  (start_working
     {| self := DockerContainer.__init__ "ChattyContainer" "chatty:latest" None ∅
                  chatty_world;
        world := chatty_world |}).2.

(** An engine whose builder fails. *)
Definition unbuildable_engine : Sim.t :=
  {| configured_host := configured_host engine0; containers := ∅;
     images := images engine0; builder := fun _ => None; cli := cli engine0 |}.

(** A scope body that removes the image itself and then fails. *)
Definition body_removes_image : EphemeralDockerImage.scope_body (E := Sim.t) bool :=
  fun i w =>
    (Raise (Exn AssertionError "assert False"),
     {| engine := with_images (delete (image_id i) (images (engine w))) (engine w);
        environ := environ w; dockerenv := dockerenv w;
        log_sink := log_sink w; calls := calls w |}).

End Scenario.

(* ===================================================================== *)
(** * A small message service to run the test client on                   *)
(* ===================================================================== *)

Module SimAws.

Import SNSSQS.

Record t : Type := {
  (* the ARNs of the topics, oldest first *)
  topics : list string;
  (* the attributes of the queues, by URL *)
  queues : gmap string (gmap string string);
  (* the messages waiting in the queues, by URL *)
  inbox : gmap string (list ReceivedMessage)
}.

Definition topic_arn_of (name : string) : string :=
  "arn:aws:sns:us-east-1:000000000000:" +:+ name.

Definition queue_arn_of (name : string) : string :=
  "arn:aws:sqs:us-east-1:000000000000:" +:+ name.

Definition queue_url_of (name : string) : string :=
  "http://sqs.us-east-1.localhost/000000000000/" +:+ name.

Definition sim_create_topic (name : string) (attributes : gmap string string)
    (w : t) : result string * t :=
  (Done (topic_arn_of name),
   {| topics := topics w ++ [topic_arn_of name]; queues := queues w; inbox := inbox w |}).

Definition sim_get_queue_url (name : string) (w : t) : result string * t :=
  match queues w !! queue_url_of name with
  | Some _ => (Done (queue_url_of name), w)
  | None => (Fail (ClientError "AWS.SimpleQueueService.NonExistentQueue"), w)
  end.

Definition sim_create_queue (name : string) (attributes : gmap string string)
    (w : t) : result unit * t :=
  (Done tt,
   {| topics := topics w;
      queues := <[ queue_url_of name := <[ "QueueArn" := queue_arn_of name ]> attributes ]>
                  (queues w);
      inbox := inbox w |}).

Definition sim_get_queue_attributes (url : string) (names : list string) (w : t)
  : result (gmap string string) * t :=
  match queues w !! url with
  | Some attributes => (Done attributes, w)
  | None => (Fail (ClientError "AWS.SimpleQueueService.NonExistentQueue"), w)
  end.

Definition sim_receive_message (url : string) (max : Z) (w : t)
  : result (option (list ReceivedMessage)) * t :=
  (Done (take (Z.to_nat max) <$> inbox w !! url), w).

Definition sim_delete_message (url handle : string) (w : t) : result unit * t :=
  (Done tt,
   {| topics := topics w; queues := queues w;
      inbox := alter (filter (fun m => negb (String.eqb (ReceiptHandle m) handle)))
                 url (inbox w) |}).

#[global] Instance sim_clients : Clients t := {|
  sns_list_topics := fun w => (Done (topics w), w);
  sns_create_topic := sim_create_topic;
  sns_subscribe := fun _ _ _ _ w => (Done tt, w);
  sns_publish := fun _ w => (Done tt, w);
  sns_get_topic_attributes := fun _ w => (Done ∅, w);
  sqs_get_queue_url := sim_get_queue_url;
  sqs_create_queue := sim_create_queue;
  sqs_get_queue_attributes := sim_get_queue_attributes;
  sqs_receive_message := sim_receive_message;
  sqs_delete_message := sim_delete_message
|}.

(** An envelope whose messages are the data itself, and a reading of a
    body that takes the body as the message. *)
Definition plain_envelope : Envelope string unit :=
  {| build_message := fun topic data => Done data;
     parse_message := fun payload proto_class => Done payload |}.

(** An envelope that cannot parse the payload "broken". *)
Definition strict_envelope : Envelope string unit :=
  {| build_message := fun topic data => Done data;
     parse_message := fun payload proto_class =>
       if String.eqb payload "broken"
       then Fail (OtherError (Exn ValueError "cannot parse"))
       else Done payload |}.

Definition body_as_message (body : string) : result string := Done body.

(** A service with the topic [new-orders], the queue [customers] and
    three messages waiting in it. *)
Definition service0 : t :=
  {| topics := [topic_arn_of "new-orders"];
     queues := {[ queue_url_of "customers"
                  := {[ "QueueArn" := queue_arn_of "customers" ]} ]};
     inbox := {[ queue_url_of "customers"
                 := [ {| Body := "first"; ReceiptHandle := "h1" |};
                      {| Body := "broken"; ReceiptHandle := "h2" |};
                      {| Body := "third"; ReceiptHandle := "h3" |} ] ]} |}.

Definition fresh (w : t) : St t := {| aws := w; requests := [] |}.

End SimAws.

(* ===================================================================== *)
(** * Proof tools                                                         *)
(* ===================================================================== *)

(** Unfolds the monad and the ambient operations down to state passing. *)
Ltac run_monad :=
  unfold mbind, mret, M_bind, M_ret, bind, ret, raise, gets, modify, lift,
    query, request, getenv, inside_container, logger_info in *;
  simpl in *.

(** The string helpers on the inputs the code meets. *)

Example split_lines : split "010" "a
b
" = ["a"; "b"; ""].
Proof. reflexivity. Qed.

Example split_empty : split "010" "" = [""].
Proof. reflexivity. Qed.

Example strip_image_id : strip "  sha256:0abc
" = "sha256:0abc".
Proof. reflexivity. Qed.

Example decode_rejects_stray_byte :
  decode (bytes_of [104; 255]%N) = Raise (Exn UnicodeDecodeError "'utf-8' codec can't decode bytes").
Proof. reflexivity. Qed.

Example decode_accepts_two_byte : is_ok (decode (bytes_of [195; 169]%N)) = true.
Proof. reflexivity. Qed.

(* ===================================================================== *)
(** * Address resolution                                                  *)
(* ===================================================================== *)

Section AddressResolution.
Context {E : Type} `{!Engine E}.
Import DockerContainer.

Ltac host_ip_cases :=
  repeat match goal with
    | |- _ /\ _ => split
    | |- forall _, _ => intro
    | H : _ \/ _ |- _ => destruct H
    end;
  simplify_eq/=; try done.

Lemma gateway_ip_reads_only (s : State E t) :
  (get_container_gateway_ip s).2 = s.
Proof.
  unfold get_container_gateway_ip, wrapped, get_wrapped_container. run_monad.
  destruct (_container (self s)); simpl; [|done].
  destruct (get_container _ _); simpl; [|done].
  by destruct (Networks _ !! _).
Qed.

Lemma internal_ip_reads_only (s : State E t) :
  (get_container_internal_ip s).2 = s.
Proof.
  unfold get_container_internal_ip, wrapped, get_wrapped_container. run_monad.
  destruct (_container (self s)); simpl; [|done].
  destruct (get_container _ _); simpl; [|done].
  by destruct (Networks _ !! _).
Qed.

(** C1.  [get_container_host_ip] follows the three-step algorithm.  With
    [h] the host the engine client reports, "absent" and "set" read as
    Python reads them ([None] and the empty string are falsy):
    (1) [h] falsy: the result is "localhost";
    (2) [h] truthy, the process is inside a container and DOCKER_HOST is
        falsy: the result is the container's internal IP when its gateway
        IP equals [h], the gateway IP when it differs, and the failure of
        the gateway lookup when that raises;
    (3) [h] truthy otherwise: the result is [h] itself.
    The state is left as it was in every case. *)
Theorem get_container_host_ip_algorithm (s : State E t) :
  let h := host (engine (world s)) in
  let inside := dockerenv (world s) in
  let override := environ (world s) !! "DOCKER_HOST" in
  (truthy h = false -> get_container_host_ip s = (Ok "localhost", s))
  /\ (forall hs, h = Some hs -> truthy h = true ->
      inside = true -> truthy override = false ->
      (forall g, (get_container_gateway_ip s).1 = Ok g -> g = hs ->
         get_container_host_ip s = get_container_internal_ip s)
      /\ (forall g, (get_container_gateway_ip s).1 = Ok g -> g <> hs ->
         get_container_host_ip s = (Ok g, s))
      /\ (forall e, (get_container_gateway_ip s).1 = Raise e ->
         get_container_host_ip s = (Raise e, s)))
  /\ (forall hs, h = Some hs -> truthy h = true ->
      inside = false \/ truthy override = true ->
      get_container_host_ip s = (Ok hs, s))
  /\ (get_container_host_ip s).2 = s.
Proof.
  intros h inside override. subst h inside override.
  unfold get_container_host_ip. run_monad.
  pose proof (gateway_ip_reads_only s) as Hg.
  pose proof (internal_ip_reads_only s) as Hi.
  destruct (host (engine (world s))) as [[|c hs']|] eqn:Hh; simpl;
    [by host_ip_cases| |by host_ip_cases].
  destruct (dockerenv (world s)) eqn:Hin; simpl; [|by host_ip_cases].
  destruct (truthy (environ (world s) !! "DOCKER_HOST")) eqn:Hov; simpl;
    [by host_ip_cases|].
  destruct (get_container_gateway_ip s) as [[g|e] s1] eqn:Hgw;
    simpl in *; subst s1; [|by host_ip_cases].
  destruct (String.eqb g (String c hs')) eqn:Heq.
  - apply String.eqb_eq in Heq. subst g. by host_ip_cases.
  - apply String.eqb_neq in Heq. by host_ip_cases.
Qed.

End AddressResolution.

Example host_ip_from_sibling_container :
  (DockerContainer.get_container_host_ip (Scenario.started Scenario.in_sibling)).1
  = Ok "172.17.0.2".
Proof. vm_compute. reflexivity. Qed.

Example host_ip_from_sibling_of_remote_engine :
  (DockerContainer.get_container_host_ip
     (Scenario.started Scenario.in_sibling_remote)).1
  = Ok "172.17.0.1".
Proof. vm_compute. reflexivity. Qed.

Example host_ip_with_override :
  (DockerContainer.get_container_host_ip
     (Scenario.started Scenario.in_sibling_with_override)).1
  = Ok "172.17.0.1".
Proof. vm_compute. reflexivity. Qed.

Example host_ip_before_start :
  (DockerContainer.get_container_host_ip (Scenario.working Scenario.in_sibling)).1
  = Raise (DockerContainer.no_attribute "id").
Proof. vm_compute. reflexivity. Qed.

(* ===================================================================== *)
(** * Lifecycle: stop, start, restart, network                           *)
(* ===================================================================== *)

Section Stop.
Context {E : Type} `{!Engine E}.
Import DockerContainer.

Lemma forward_without_container (s : State E t) :
  _container (self s) = None ->
  _forward_container_logs_to_logger s = (Ok tt, s).
Proof.
  intros Hc. unfold _forward_container_logs_to_logger. run_monad.
  by rewrite Hc.
Qed.

Lemma stop_clears (s s' : State E t) :
  stop Testcontainers.stop s = (Ok tt, s') -> _container (self s') = None.
Proof.
  unfold stop, _stop. run_monad.
  destruct (_forward_container_logs_to_logger s) as [[[]|] s1]; [|done].
  destruct (Testcontainers.stop true true s1) as [[[]|] s2]; [|done].
  intros [= <-]. reflexivity.
Qed.

Lemma stop_without_container (s : State E t) :
  _container (self s) = None ->
  stop Testcontainers.stop s = (Raise (no_attribute "remove"), s).
Proof.
  intros Hc. unfold stop, _stop. unfold mbind, M_bind, bind.
  rewrite forward_without_container by done.
  unfold Testcontainers.stop, wrapped, get_wrapped_container. run_monad.
  by rewrite Hc.
Qed.

(** C2.  The code breaks the claim.  [stop()] skips the log forwarding
    when the manager holds no container, but then calls the base class's
    [stop], which looks [remove] up on the missing container.  So on a
    manager that was never started [stop()] raises [AttributeError]; and
    once a call of [stop()] has returned (it has set the container to
    [None]), the next call raises [AttributeError] too, so two calls in a
    row raise.  Nothing is sent to the engine and nothing changes in
    either case. *)
Theorem stop_raises_without_container (s : State E t) :
  (_container (self s) = None ->
     stop Testcontainers.stop s = (Raise (no_attribute "remove"), s))
  /\ (forall s', stop Testcontainers.stop s = (Ok tt, s') ->
      stop Testcontainers.stop s' = (Raise (no_attribute "remove"), s')
      /\ stop_times Testcontainers.stop 2 s = (Raise (no_attribute "remove"), s')).
Proof.
  split; [apply stop_without_container|].
  intros s' Hs. pose proof (stop_clears _ _ Hs) as Hc.
  pose proof (stop_without_container s' Hc) as H2.
  split; [exact H2|].
  simpl. unfold mbind, M_bind, bind. by rewrite Hs, H2.
Qed.

End Stop.

(** The failing inputs of C2 on the small engine:
    [WorkingContainer().stop()], and
    [c = WorkingContainer().start(); c.stop(); c.stop()] of
    test_container_stop_is_idempotent, whose first [stop()] returns and
    removes the container and whose second [stop()] raises. *)

Example stop_never_started_raises :
  Scenario.stop_working (Scenario.working Scenario.on_host)
  = (Raise (Exn AttributeError "'NoneType' object has no attribute 'remove'"),
     Scenario.working Scenario.on_host).
Proof. vm_compute. reflexivity. Qed.

Example stop_twice_raises :
  (Scenario.stop_working (Scenario.started Scenario.on_host)).1 = Ok tt
  /\ Sim.containers
       (engine (world (Scenario.stop_working (Scenario.started Scenario.on_host)).2))
     = ∅
  /\ (Scenario.stop_working
        (Scenario.stop_working (Scenario.started Scenario.on_host)).2).1
     = Raise (Exn AttributeError "'NoneType' object has no attribute 'remove'")
  /\ (DockerContainer.stop_times Testcontainers.stop 2
        (Scenario.started Scenario.on_host)).1
     = Raise (Exn AttributeError "'NoneType' object has no attribute 'remove'").
Proof. repeat split; vm_compute; reflexivity. Qed.

(** A started container has written a byte that is not UTF-8: [stop()]
    raises the decoding error of the log forwarding before the base
    class's [stop] is reached; the manager still holds the container, and
    so does the engine. *)
Example stop_raises_on_undecodable_logs :
  (DockerContainer.start Scenario.working_message Scenario.noisy_container).1 = Ok tt
  /\ (DockerContainer.stop Testcontainers.stop Scenario.noisy_started).1
     = Raise (Exn UnicodeDecodeError "'utf-8' codec can't decode bytes")
  /\ (DockerContainer.stop Testcontainers.stop Scenario.noisy_started).2
     = Scenario.noisy_started
  /\ is_Some (Sim.containers (engine (world Scenario.noisy_started)) !! "anonymous").
Proof.
  repeat split; try (vm_compute; reflexivity).
  vm_compute. by eexists.
Qed.

Section Start.
Context {E : Type} `{!Engine E}.
Import DockerContainer.

Variable log_message_on_container_start : M (State E t) string.

Lemma for_each_logger_info (name : string) (lines : list string) (s : State E t) :
  for_each lines (fun log => logger_info name log) s
  = (Ok tt,
     {| self := self s;
        world := {| engine := engine (world s);
                    environ := environ (world s);
                    dockerenv := dockerenv (world s);
                    log_sink := log_sink (world s)
                                ++ map (fun l => {| logger_name := name; message := l |}) lines;
                    calls := calls (world s) |} |}).
Proof.
  revert s. induction lines as [|l lines IH]; intros s; simpl.
  - unfold ret. rewrite app_nil_r. by destruct s as [? []].
  - unfold bind, logger_info, modify. rewrite IH. simpl.
    by rewrite <- app_assoc.
Qed.

Lemma forward_with_container (s : State E t) (c : Container) (raw text : string) :
  _container (self s) = Some c ->
  logs c true (engine (world s)) = Ok raw ->
  decode raw = Ok text ->
  _forward_container_logs_to_logger s
  = (Ok tt,
     {| self := self s;
        world := {| engine := engine (world s);
                    environ := environ (world s);
                    dockerenv := dockerenv (world s);
                    log_sink := log_sink (world s) ++ forwarded (self s) text;
                    calls := calls (world s) |} |}).
Proof.
  intros Hc Hl Hd. unfold _forward_container_logs_to_logger, forwarded.
  run_monad. rewrite Hc, Hl. simpl. rewrite Hd.
  apply for_each_logger_info.
Qed.

(** Where the claim C3 holds.  When the body of [start] raises an
    [Exception] [e] and leaves the state [s1], [start] forwards the logs
    of the container the manager holds in [s1] and, when that forwarding
    returns, raises [e] itself from the state the forwarding leaves.  The
    forwarding emits nothing when the manager holds no container, and one
    record per line of the decoded log, on the manager's logger, when it
    holds one. *)
Theorem start_failure_flushes_then_reraises (s s1 : State E t) (e : exn) :
  start_body log_message_on_container_start s = (Raise e, s1) ->
  is_Exception e = true ->
  (forall s2, _forward_container_logs_to_logger s1 = (Ok tt, s2) ->
     start log_message_on_container_start s = (Raise e, s2))
  /\ (_container (self s1) = None ->
      start log_message_on_container_start s = (Raise e, s1))
  /\ (forall c raw text,
      _container (self s1) = Some c ->
      logs c true (engine (world s1)) = Ok raw ->
      decode raw = Ok text ->
      exists s2,
        start log_message_on_container_start s = (Raise e, s2)
        /\ self s2 = self s1
        /\ engine (world s2) = engine (world s1)
        /\ calls (world s2) = calls (world s1)
        /\ log_sink (world s2) = log_sink (world s1) ++ forwarded (self s1) text).
Proof.
  intros Hbody Hexc.
  assert (Hstart : forall s2, _forward_container_logs_to_logger s1 = (Ok tt, s2) ->
            start log_message_on_container_start s = (Raise e, s2)).
  { intros s2 Hf. unfold start, try_except. rewrite Hbody, Hexc.
    run_monad. by rewrite Hf. }
  split; [exact Hstart|]. split.
  - intros Hc. apply Hstart. unfold _forward_container_logs_to_logger.
    run_monad. by rewrite Hc.
  - intros c raw text Hc Hl Hd.
    eexists. split; [apply Hstart; by eapply forward_with_container|].
    by simpl.
Qed.

(** C3.  The code breaks the claim.  The handler of [start] calls the
    log forwarding with no guard before its bare [raise]: whenever the
    body of [start] raises an [Exception] [e] and the forwarding then
    raises [e'] (the logs cannot be fetched, or do not decode), [start]
    raises [e'], and [e] is not re-raised. *)
Theorem start_failure_masked_when_forwarding_raises (s s1 s2 : State E t)
    (e e' : exn) :
  start_body log_message_on_container_start s = (Raise e, s1) ->
  is_Exception e = true ->
  _forward_container_logs_to_logger s1 = (Raise e', s2) ->
  start log_message_on_container_start s = (Raise e', s2).
Proof.
  intros Hbody Hexc Hf. unfold start, try_except. rewrite Hbody, Hexc.
  unfold mbind, M_bind, bind. by rewrite Hf.
Qed.

End Start.

Lemma start_failure_flushes_then_reraises_witness :
  exists s2,
    DockerContainer.start Scenario.failing_message (Scenario.working Scenario.on_host)
    = (Raise (Exn RuntimeError "Container healthcheck failed"), s2)
    /\ log_sink (world s2)
       = [ {| logger_name := "WorkingContainer"; message := "Pulling image: alpine:latest" |};
           {| logger_name := "WorkingContainer"; message := "Container started: anonymous" |};
           {| logger_name := "WorkingContainer"; message := "" |} ].
Proof.
  assert (Hbody : DockerContainer.start_body Scenario.failing_message
                    (Scenario.working Scenario.on_host)
                  = (Raise (Exn RuntimeError "Container healthcheck failed"),
                     (DockerContainer.start_body Scenario.failing_message
                        (Scenario.working Scenario.on_host)).2))
    by (vm_compute; reflexivity).
  destruct (start_failure_flushes_then_reraises Scenario.failing_message
              _ _ _ Hbody eq_refl) as (_ & _ & H).
  destruct (H {| c_id := "anonymous"; c_short_id := "anonymous" |} "" "")
    as (s2 & Hs & _ & _ & _ & Hl); try (vm_compute; reflexivity).
  exists s2. split; [exact Hs|]. rewrite Hl. vm_compute. reflexivity.
Defined.

(** The failing input of C3: the readiness message of a started
    container cannot be computed ([RuntimeError]), the container has
    written a byte that is not UTF-8, and [start] raises the decoding
    error in place of the error of the message. *)
Lemma start_failure_masked_when_forwarding_raises_witness :
  (DockerContainer.start_body Scenario.failing_message Scenario.noisy_container).1
  = Raise (Exn RuntimeError "Container healthcheck failed")
  /\ (DockerContainer.start Scenario.failing_message Scenario.noisy_container).1
     = Raise (Exn UnicodeDecodeError "'utf-8' codec can't decode bytes")
  /\ Exn UnicodeDecodeError "'utf-8' codec can't decode bytes"
     <> Exn RuntimeError "Container healthcheck failed".
Proof.
  assert (Hbody : DockerContainer.start_body Scenario.failing_message
                    Scenario.noisy_container
                  = (Raise (Exn RuntimeError "Container healthcheck failed"),
                     (DockerContainer.start_body Scenario.failing_message
                        Scenario.noisy_container).2))
    by (vm_compute; reflexivity).
  assert (Hf : DockerContainer._forward_container_logs_to_logger
                 (DockerContainer.start_body Scenario.failing_message
                    Scenario.noisy_container).2
               = (Raise (Exn UnicodeDecodeError "'utf-8' codec can't decode bytes"),
                  (DockerContainer.start_body Scenario.failing_message
                     Scenario.noisy_container).2))
    by (vm_compute; reflexivity).
  split; [by rewrite Hbody|]. split; [|discriminate].
  by rewrite (start_failure_masked_when_forwarding_raises
                Scenario.failing_message _ _ _ _ _ Hbody eq_refl Hf).
Defined.

Section Restart.
Context {E : Type} `{!Engine E}.
Import DockerContainer.

(** C9.  On a started manager, one holding the container [c],
    [restart()] sends the engine one request, the restart of [c], and
    gives what the engine answers; the manager keeps the same handle (all
    of its attributes are as before), nothing is logged, and the restart
    is the only request sent: no [run], the request that pulls the image
    and creates a container. *)
Theorem restart_keeps_handle (s : State E t) (c : Container) :
  _container (self s) = Some c ->
  (restart s).1 = (Docker.restart c (engine (world s))).1
  /\ engine (world (restart s).2) = (Docker.restart c (engine (world s))).2
  /\ self (restart s).2 = self s
  /\ _container (self (restart s).2) = Some c
  /\ log_sink (world (restart s).2) = log_sink (world s)
  /\ calls (world (restart s).2) = calls (world s) ++ [CallRestart c].
Proof.
  intros Hc. unfold restart, wrapped, get_wrapped_container. run_monad.
  rewrite Hc. simpl.
  destruct (Docker.restart c (engine (world s))) as [r e'] eqn:Hr. simpl.
  by repeat split.
Qed.

End Restart.

Lemma restart_keeps_handle_witness :
  (DockerContainer.restart (Scenario.started Scenario.on_host)).1 = Ok tt
  /\ DockerContainer._container
       (self (DockerContainer.restart (Scenario.started Scenario.on_host)).2)
     = Some {| c_id := "anonymous"; c_short_id := "anonymous" |}
  /\ log_sink (world (DockerContainer.restart (Scenario.started Scenario.on_host)).2)
     = log_sink (world (Scenario.started Scenario.on_host)).
Proof.
  destruct (restart_keeps_handle (Scenario.started Scenario.on_host)
              {| c_id := "anonymous"; c_short_id := "anonymous" |})
    as (Hr & _ & _ & Hc & Hl & _); [vm_compute; reflexivity|].
  split; [rewrite Hr; vm_compute; reflexivity|].
  split; [exact Hc | exact Hl].
Defined.

Example restart_before_start :
  (DockerContainer.restart (Scenario.working Scenario.on_host)).1
  = Raise (DockerContainer.no_attribute "restart").
Proof. vm_compute. reflexivity. Qed.

Section Network.
Context {E : Type} `{!Engine E}.
Import DockerContainer.

(** C10.  The network name of a manager is fixed by [__init__]: the
    [network] argument when it is given (truthy), else the value of
    TESTCONTAINER_DOCKER_NETWORK when it is set (truthy), else "bridge".
    That value is the [network] keyword [_start] hands to [run], it is
    still the manager's network after [_start], and it is the key under
    which both [get_container_internal_ip] and [get_container_gateway_ip]
    read the container's per-network attributes. *)
Theorem network_fixed_at_construction (cls img : string) (net : option string)
    (kwargs : gmap string string) (w : World E) :
  let o := __init__ cls img net kwargs w in
  let from_env := environ w !! "TESTCONTAINER_DOCKER_NETWORK" in
  network o = (if truthy net then default "" net
               else if truthy from_env then default "" from_env
               else "bridge")
  /\ run_kwargs (run_args o) !! "network" = Some (network o)
  /\ (forall s, self s = o -> repeated_keyword (_kwargs o) = None ->
      calls (world (_start s).2) = calls (world s) ++ [CallRun (run_args o)]
      /\ network (self (_start s).2) = network o)
  /\ (forall s c i, network (self s) = network o ->
      _container (self s) = Some c ->
      get_container (c_id c) (engine (world s)) = Ok i ->
      get_container_internal_ip s
      = (match Networks i !! network o with
         | Some attrs => Ok (IPAddress attrs)
         | None => Raise (Exn KeyError (network o))
         end, s)
      /\ get_container_gateway_ip s
         = (match Networks i !! network o with
            | Some attrs => Ok (Gateway attrs)
            | None => Raise (Exn KeyError (network o))
            end, s)).
Proof.
  intros o from_env.
  split; [|split; [|split]].
  - subst o from_env. unfold __init__, or_; simpl.
    destruct net as [[|? ?]|]; simpl; try done;
      destruct (environ w !! "TESTCONTAINER_DOCKER_NETWORK") as [[|? ?]|];
      done.
  - subst o. unfold run_args, __init__; simpl. by rewrite lookup_insert_eq.
  - clearbody o. intros s Hs Hk. unfold _start. run_monad. rewrite Hs, Hk.
    destruct (run _ _) as [[c|e] e']; simpl; by rewrite ?Hs.
  - clearbody o. intros s c i Hn Hc Hi.
    unfold get_container_internal_ip, get_container_gateway_ip, wrapped,
      get_wrapped_container.
    run_monad. rewrite Hc. simpl. rewrite Hi. simpl. rewrite Hn.
    by destruct (Networks i !! _).
Qed.

End Network.

Example network_from_argument :
  DockerContainer.network
    (DockerContainer.__init__ "WorkingContainer" "alpine:latest" (Some "my-net") ∅
       (Sim.world0 Sim.engine0 {[ "TESTCONTAINER_DOCKER_NETWORK" := "ci-net" ]} false))
  = "my-net".
Proof. vm_compute. reflexivity. Qed.

Example network_from_environment :
  DockerContainer.network
    (DockerContainer.__init__ "WorkingContainer" "alpine:latest" None ∅
       (Sim.world0 Sim.engine0 {[ "TESTCONTAINER_DOCKER_NETWORK" := "ci-net" ]} false))
  = "ci-net".
Proof. vm_compute. reflexivity. Qed.

Example network_default :
  DockerContainer.network (self (Scenario.working Scenario.on_host)) = "bridge".
Proof. vm_compute. reflexivity. Qed.

Example network_empty_argument_is_not_given :
  DockerContainer.network
    (DockerContainer.__init__ "WorkingContainer" "alpine:latest" (Some "") ∅
       (Sim.world0 Sim.engine0 {[ "TESTCONTAINER_DOCKER_NETWORK" := "ci-net" ]} false))
  = "ci-net".
Proof. vm_compute. reflexivity. Qed.

Example run_receives_the_network :
  exists a, calls (world (Scenario.started Scenario.on_host)) = [CallRun a]
            /\ run_kwargs a !! "network" = Some "bridge".
Proof. eexists. split; [vm_compute; reflexivity|vm_compute; reflexivity]. Qed.

(* ===================================================================== *)
(** * Image builder                                                       *)
(* ===================================================================== *)

Section Build.
Context {E : Type} `{!Engine E}.
Import EphemeralDockerImage.

Lemma buildkit_sends_one_command (s : State E t) :
  calls (world (_build_with_docker_buildkit s).2)
  = calls (world s) ++ [CallExec (buildkit_cmd (self s))]
  /\ self (_build_with_docker_buildkit s).2 = self s.
Proof.
  unfold _build_with_docker_buildkit, subprocess_run. run_monad.
  destruct (exec _ _) as [[p|e] e']; simpl; [|done].
  destruct (returncode p =? 0)%Z; simpl; [|done].
  destruct (decode (stdout p)); simpl; [|done].
  done.
Qed.

Lemma build_image_branch (s : State E t) :
  build_image s
  = if truthy (environ (world s) !! "DOCKER_BUILDKIT")
    then (i ← _build_with_docker_buildkit; modify (set_self (set_image i))) s
    else (i ← _build_with_docker_client; modify (set_self (set_image i))) s.
Proof.
  unfold build_image. run_monad.
  by destruct (truthy (environ (world s) !! "DOCKER_BUILDKIT")).
Qed.

(** C6.  [build_image] picks one of two strategies by the DOCKER_BUILDKIT
    toggle alone.  Toggle set (truthy): the only request sent is the
    builder command line, and no [images.build].  Toggle absent (falsy):
    the only request sent is one [images.build] with the manager's
    dockerfile, its context as path, its target and [forcerm=True], and no
    command line; the image it returns becomes the manager's image, and a
    failure of it is raised with the manager unchanged. *)
Theorem build_image_strategy (s : State E t) :
  let toggle := environ (world s) !! "DOCKER_BUILDKIT" in
  let direct := {| build_dockerfile := dockerfile (self s);
                   build_path := context (self s);
                   build_target := target (self s);
                   build_forcerm := true |} in
  (truthy toggle = true ->
     calls (world (build_image s).2)
     = calls (world s) ++ [CallExec (buildkit_cmd (self s))])
  /\ (truthy toggle = false ->
      calls (world (build_image s).2) = calls (world s) ++ [CallImagesBuild direct]
      /\ (forall i e', images_build direct (engine (world s)) = (Ok i, e') ->
          build_image s = (Ok tt, built (CallImagesBuild direct) e' i s))
      /\ (forall e e', images_build direct (engine (world s)) = (Raise e, e') ->
          build_image s = (Raise e, sent (CallImagesBuild direct) e' s))).
Proof.
  intros toggle direct. subst toggle.
  split; intros Ht; rewrite build_image_branch, Ht.
  - pose proof (buildkit_sends_one_command s) as [Hc Hs].
    run_monad.
    destruct (_build_with_docker_buildkit s) as [[i|e] s1]; simpl in *; done.
  - unfold _build_with_docker_client, build_args. run_monad. fold direct.
    destruct (images_build direct (engine (world s))) as [[i|e] e'] eqn:Hb;
      simpl; repeat split; try done; intros; by simplify_eq.
Qed.

(** C7.  The builder strategy runs the command line
    [docker build -q --rm=true], then [-f <dockerfile>] when a dockerfile
    is given (truthy), then [--target <stage>] when a target is given
    (truthy), then the context, which comes last.  It is the only request
    sent.  When the process exits with a code other than 0 the strategy
    raises [CalledProcessError] and asks the engine for no image; when it
    exits with 0 the result is what [images.get] answers for the decoded
    and stripped standard output. *)
Theorem buildkit_command_line (s : State E t) :
  let o := self s in
  let cmd := buildkit_cmd o in
  cmd = ["docker"; "build"; "-q"; "--rm=true"]
        ++ (if truthy (dockerfile o) then ["-f"; default "" (dockerfile o)] else [])
        ++ (if truthy (target o) then ["--target"; default "" (target o)] else [])
        ++ [context o]
  /\ last cmd = Some (context o)
  /\ calls (world (_build_with_docker_buildkit s).2) = calls (world s) ++ [CallExec cmd]
  /\ (forall p e', exec cmd (engine (world s)) = (Ok p, e') ->
      (returncode p <> 0%Z ->
         _build_with_docker_buildkit s
         = (Raise (Exn CalledProcessError "returned non-zero exit status"),
            sent (CallExec cmd) e' s))
      /\ (returncode p = 0%Z ->
          forall text, decode (stdout p) = Ok text ->
          _build_with_docker_buildkit s
          = (images_get (strip text) e', sent (CallExec cmd) e' s))).
Proof.
  intros o cmd. subst o cmd.
  split; [|split; [|split]].
  - unfold buildkit_cmd.
    destruct (truthy (dockerfile (self s))), (truthy (target (self s))); reflexivity.
  - unfold buildkit_cmd. by rewrite last_snoc.
  - apply buildkit_sends_one_command.
  - intros p e' Hx. unfold _build_with_docker_buildkit, subprocess_run.
    run_monad. rewrite Hx. simpl. split.
    + intros Hrc. apply Z.eqb_neq in Hrc. by rewrite Hrc.
    + intros Hrc text Hd. rewrite Hrc. simpl. by rewrite Hd.
Qed.

End Build.

Section Scope.
Context {E : Type} `{!Engine E}.
Import EphemeralDockerImage.

Lemma enter_sets_image (s s1 : State E t) (i : Image) :
  __enter__ s = (Ok i, s1) -> image (self s1) = Some i.
Proof.
  unfold __enter__, get_image. run_monad.
  destruct (build_image s) as [[[]|] s']; [|done].
  destruct (image (self s')) eqn:Hi; [|done].
  by intros [= -> ->].
Qed.

Lemma exit_removes (exc : option exn) (s : State E t) (i : Image) :
  image (self s) = Some i ->
  __exit__ exc s
  = (match (images_remove (image_id i) (engine (world s))).1 with
     | Ok _ => Ok false
     | Raise e => Raise e
     end,
     sent (CallImagesRemove (image_id i))
       (images_remove (image_id i) (engine (world s))).2 s).
Proof.
  intros Hi. unfold __exit__, remove_image, get_image. run_monad.
  rewrite Hi. simpl.
  by destruct (images_remove (image_id i) (engine (world s))) as [[[]|] ?].
Qed.

(** C8.  Once a scope is entered, that is [__enter__] has built the image
    [i] and returned it, leaving the scope sends the engine the removal of
    [i] as the last request, on the engine state the body left, whether
    the body returned or raised.  With the removal done, a body that
    returned [b] makes the statement return [b] and a body that raised [e]
    makes it raise [e]. *)
Theorem scope_exit_removes_image {B : Type} (body : scope_body B)
    (s s1 : State E t) (i : Image) :
  __enter__ s = (Ok i, s1) ->
  let after_body := (run_body body i s1).2 in
  let removal := images_remove (image_id i) (engine (world after_body)) in
  (scoped body s).2 = sent (CallImagesRemove (image_id i)) removal.2 after_body
  /\ calls (world (scoped body s).2)
     = calls (world after_body) ++ [CallImagesRemove (image_id i)]
  /\ (removal.1 = Ok tt ->
      (forall b, (run_body body i s1).1 = Ok b -> (scoped body s).1 = Ok (Some b))
      /\ (forall e, (run_body body i s1).1 = Raise e -> (scoped body s).1 = Raise e)).
Proof.
  intros Henter after_body removal.
  pose proof (enter_sets_image _ _ _ Henter) as Hi.
  assert (Hi' : image (self after_body) = Some i).
  { subst after_body. unfold run_body. by destruct (body i (world s1)). }
  unfold scoped, with_. rewrite Henter.
  destruct (run_body body i s1) as [[b|e] s2] eqn:Hb; simpl in *;
    subst after_body; simpl in *;
    rewrite (exit_removes _ _ _ Hi'); fold removal;
    destruct removal as [[[]|e'] e2]; simpl;
    repeat split; try done; intros; by simplify_eq.
Qed.

End Scope.

Lemma scope_exit_removes_image_witness :
  calls (world (EphemeralDockerImage.scoped Scenario.body_raises
                  {| self := Scenario.hello_world; world := Scenario.toggle_off |}).2)
  = [ CallImagesBuild (EphemeralDockerImage.build_args Scenario.hello_world);
      CallImagesRemove "sha256:." ]
  /\ (EphemeralDockerImage.scoped Scenario.body_raises
        {| self := Scenario.hello_world; world := Scenario.toggle_off |}).1
     = Raise (Exn AssertionError "assert False").
Proof.
  assert (Henter :
    EphemeralDockerImage.__enter__
      {| self := Scenario.hello_world; world := Scenario.toggle_off |}
    = (Ok {| image_id := "sha256:." |},
       (EphemeralDockerImage.__enter__
          {| self := Scenario.hello_world; world := Scenario.toggle_off |}).2))
    by (vm_compute; reflexivity).
  destruct (scope_exit_removes_image Scenario.body_raises _ _ _ Henter)
    as (_ & Hc & Hr).
  split.
  - rewrite Hc. vm_compute. reflexivity.
  - apply Hr; vm_compute; reflexivity.
Defined.

Example scope_removes_after_normal_exit :
  Sim.images
    (engine (world (EphemeralDockerImage.scoped Scenario.body_passes
                      {| self := Scenario.hello_world; world := Scenario.toggle_off |}).2))
  !! "sha256:." = None
  /\ (EphemeralDockerImage.scoped Scenario.body_passes
        {| self := Scenario.hello_world; world := Scenario.toggle_off |}).1
     = Ok (Some true).
Proof. split; vm_compute; reflexivity. Qed.

Example scope_removes_after_failure :
  Sim.images
    (engine (world (EphemeralDockerImage.scoped Scenario.body_raises
                      {| self := Scenario.hello_world; world := Scenario.toggle_off |}).2))
  !! "sha256:." = None.
Proof. vm_compute. reflexivity. Qed.

Example build_with_toggle_on :
  calls (world (EphemeralDockerImage.build_image
                  {| self := Scenario.release_build; world := Scenario.toggle_on |}).2)
  = [ CallExec ["docker"; "build"; "-q"; "--rm=true"; "-f"; "/tmp/Dockerfile";
                "--target"; "release"; "/src"] ]
  /\ EphemeralDockerImage.image
       (self (EphemeralDockerImage.build_image
                {| self := Scenario.release_build; world := Scenario.toggle_on |}).2)
     = Some {| image_id := "alpine:latest" |}.
Proof. split; vm_compute; reflexivity. Qed.

Example build_with_toggle_off :
  calls (world (EphemeralDockerImage.build_image
                  {| self := Scenario.release_build; world := Scenario.toggle_off |}).2)
  = [ CallImagesBuild {| build_dockerfile := Some "/tmp/Dockerfile";
                         build_path := "/src";
                         build_target := Some "release";
                         build_forcerm := true |} ].
Proof. vm_compute. reflexivity. Qed.

Example buildkit_without_options :
  EphemeralDockerImage.buildkit_cmd (EphemeralDockerImage.__init__ None None None)
  = ["docker"; "build"; "-q"; "--rm=true"; "."].
Proof. reflexivity. Qed.

Example buildkit_failure_raises :
  (EphemeralDockerImage.build_image
     {| self := Scenario.hello_world;
        world := Sim.world0 Scenario.failing_cli_engine
                   {[ "DOCKER_BUILDKIT" := "1" ]} false |}).1
  = Raise (Exn CalledProcessError "returned non-zero exit status").
Proof. vm_compute. reflexivity. Qed.

(* ===================================================================== *)
(** * Probe engine                                                        *)
(* ===================================================================== *)

Section ProbeFacts.
Context {S A : Type}.
Import AsyncProbes.

Variable check : Check S A.
Variables probe_interval stop_after : nat.

Lemma invoke_spec (s : Run S A) :
  exists d,
    0 < d
    /\ invoke check s
       = ((check (user s)).1.1,
          {| user := (check (user s)).1.2; clock := clock s + d;
             trace := trace s ++ [Checked (clock s + d) (check (user s)).1.1] |}).
Proof.
  unfold invoke. destruct (check (user s)) as [[r u] d].
  exists (Pos.to_nat d). split; [lia|done].
Qed.

Lemma until_run_last start tr (r : outcome A) t :
  until_run probe_interval stop_after start tr r t ->
  last tr = Some (Checked t r).
Proof.
  induction 1 as [| |t e tr r t' Hle Hrun IH]; try done.
  change (Checked t (Raise e) :: Slept probe_interval :: tr)
    with ([Checked t (Raise e); Slept probe_interval] ++ tr).
  rewrite last_app, IH. done.
Qed.

Lemma during_run_last start tr (r : outcome A) t :
  during_run probe_interval stop_after start tr r t ->
  last tr = Some (Checked t r).
Proof.
  induction 1 as [| |t v tr r t' Hle Hrun IH]; try done.
  change (Checked t (Ok v) :: Slept probe_interval :: tr)
    with ([Checked t (Ok v); Slept probe_interval] ++ tr).
  rewrite last_app, IH. done.
Qed.

(** Every attempt moves the clock, so [fuel] attempts are enough once
    they outnumber the ticks left in the budget. *)
Lemma probe_until_loop_terminates (fuel start : nat) (s : Run S A) :
  start <= clock s ->
  1 <= fuel ->
  stop_after + 1 < (clock s - start) + fuel ->
  exists r tr s',
    probe_until_loop fuel check probe_interval stop_after start s = (Some r, s')
    /\ trace s' = trace s ++ tr
    /\ until_run probe_interval stop_after start tr r (clock s')
    /\ (always_fails check -> exists e, r = Raise e).
Proof.
  revert s.
  induction fuel as [|fuel IH]; intros s Hstart Hfuel Hbound.
  - lia.
  - simpl. destruct (invoke_spec s) as (d & Hd & ->).
    destruct (check (user s)).1.1 as [v|e] eqn:Hr.
    + eexists (Ok v), _, _. repeat split; [constructor|].
      intros Hf. destruct (Hf (user s)) as [e He]. congruence.
    + simpl. destruct (stop_after <? clock s + d - start)%nat eqn:Hlt.
      * apply Nat.ltb_lt in Hlt.
        eexists (Raise e), _, _. repeat split; [by constructor|eauto].
      * apply Nat.ltb_ge in Hlt.
        edestruct (IH (sleep probe_interval
                         {| user := (check (user s)).1.2; clock := clock s + d;
                            trace := trace s ++ [Checked (clock s + d) (Raise e)] |}))
          as (r & tr & s' & Hloop & Htr & Hrun & Hfail); simpl; [lia|lia|lia|].
        exists r, (Checked (clock s + d) (Raise e) :: Slept probe_interval :: tr), s'.
        rewrite Hloop. repeat split; [|by constructor|done].
        rewrite Htr. simpl. by rewrite <- !app_assoc.
Qed.

(** C4.  [probe_until] comes to an end, and its events are: invocations
    of the check that failed within the budget, each followed by one
    suspension of [probe_interval], then a last invocation that either
    succeeded or failed with more than [stop_after] elapsed.  What the
    probe gives is what that last invocation gave: the value of the
    success, or the very exception of the last failure (type and message,
    nothing wrapped around it); the clock at the end is the clock when
    that invocation finished, so nothing is waited out after it.  A check
    that fails on every invocation therefore makes the probe raise the
    check's last exception. *)
Theorem probe_until_reraises_last_failure (s : Run S A) :
  exists r tr s',
    probe_until check probe_interval stop_after s = (Some r, s')
    /\ trace s' = trace s ++ tr
    /\ until_run probe_interval stop_after (clock s) tr r (clock s')
    /\ last tr = Some (Checked (clock s') r)
    /\ (always_fails check -> exists e, r = Raise e).
Proof.
  unfold probe_until.
  destruct (probe_until_loop_terminates (attempts_bound stop_after) (clock s) s)
    as (r & tr & s' & Hloop & Htr & Hrun & Hfail);
    [lia|unfold attempts_bound; lia|unfold attempts_bound; lia|].
  exists r, tr, s'. repeat split; try done.
  by eapply until_run_last.
Qed.

Lemma probe_during_interval_loop_terminates (fuel start : nat) (s : Run S A) :
  start <= clock s ->
  1 <= fuel ->
  stop_after + 1 < (clock s - start) + fuel ->
  exists r tr s',
    probe_during_interval_loop fuel check probe_interval stop_after start s
    = (Some r, s')
    /\ trace s' = trace s ++ tr
    /\ during_run probe_interval stop_after start tr r (clock s')
    /\ (always_passes check -> exists v, r = Ok v).
Proof.
  revert s.
  induction fuel as [|fuel IH]; intros s Hstart Hfuel Hbound.
  - lia.
  - simpl. destruct (invoke_spec s) as (d & Hd & ->).
    destruct (check (user s)).1.1 as [v|e] eqn:Hr.
    + simpl. destruct (stop_after <? clock s + d - start)%nat eqn:Hlt.
      * apply Nat.ltb_lt in Hlt.
        eexists (Ok v), _, _. repeat split; [by constructor|eauto].
      * apply Nat.ltb_ge in Hlt.
        edestruct (IH (sleep probe_interval
                         {| user := (check (user s)).1.2; clock := clock s + d;
                            trace := trace s ++ [Checked (clock s + d) (Ok v)] |}))
          as (r & tr & s' & Hloop & Htr & Hrun & Hpass); simpl; [lia|lia|lia|].
        exists r, (Checked (clock s + d) (Ok v) :: Slept probe_interval :: tr), s'.
        rewrite Hloop. repeat split; [|by constructor|done].
        rewrite Htr. simpl. by rewrite <- !app_assoc.
    + eexists (Raise e), _, _. repeat split; [constructor|].
      intros Hp. destruct (Hp (user s)) as [v Hv]. congruence.
Qed.

(** C5.  [probe_during_interval] comes to an end, and its events are:
    invocations of the check that succeeded within the window, each
    followed by one suspension of [probe_interval], then a last invocation
    that either failed or succeeded with more than [stop_after] elapsed.
    So the first failure is the last event: the probe raises that very
    exception, with no retry and no suspension after it (the clock at the
    end is the clock when the failing invocation finished).  A check that
    passes on every invocation makes the probe return. *)
Theorem probe_during_interval_aborts_on_first_failure (s : Run S A) :
  exists r tr s',
    probe_during_interval check probe_interval stop_after s = (Some r, s')
    /\ trace s' = trace s ++ tr
    /\ during_run probe_interval stop_after (clock s) tr r (clock s')
    /\ last tr = Some (Checked (clock s') r)
    /\ (always_passes check -> exists v, r = Ok v).
Proof.
  unfold probe_during_interval.
  destruct (probe_during_interval_loop_terminates (attempts_bound stop_after)
              (clock s) s)
    as (r & tr & s' & Hloop & Htr & Hrun & Hpass);
    [lia|unfold attempts_bound; lia|unfold attempts_bound; lia|].
  exists r, tr, s'. repeat split; try done.
  by eapply during_run_last.
Qed.

End ProbeFacts.

(** The cases of tests/pytest/test_async_probes.py, with an interval of
    100 ticks and checks that take one tick. *)

Example probe_until_always_failing :
  AsyncProbes.always_fails AsyncProbes.always_raising
  /\ (AsyncProbes.probe_until AsyncProbes.always_raising 100 300
        (AsyncProbes.fresh tt)).1
     = Some (Raise (Exn ValueError "Something went wrong"))
  /\ AsyncProbes.clock
       (AsyncProbes.probe_until AsyncProbes.always_raising 100 300
          (AsyncProbes.fresh tt)).2 = 304.
Proof. split; [intros u; by eexists|split; reflexivity]. Qed.

Example probe_until_recovers_after_failure :
  AsyncProbes.probe_until AsyncProbes.assert_pop 100 300
    (AsyncProbes.fresh [false; false; true])
  = (Some (Ok true),
     {| AsyncProbes.user := []; AsyncProbes.clock := 203;
        AsyncProbes.trace :=
          [ AsyncProbes.Checked 1 (Raise (Exn AssertionError "assert False"));
            AsyncProbes.Slept 100;
            AsyncProbes.Checked 102 (Raise (Exn AssertionError "assert False"));
            AsyncProbes.Slept 100;
            AsyncProbes.Checked 203 (Ok true) ] |}).
Proof. reflexivity. Qed.

Example probe_until_timeout_reached :
  (AsyncProbes.probe_until AsyncProbes.assert_pop 100 300
     (AsyncProbes.fresh [false; false; false; false; true])).1
  = Some (Raise (Exn AssertionError "assert False"))
  /\ AsyncProbes.user
       (AsyncProbes.probe_until AsyncProbes.assert_pop 100 300
          (AsyncProbes.fresh [false; false; false; false; true])).2
     = [true].
Proof. split; reflexivity. Qed.

Example probe_during_interval_passes :
  (AsyncProbes.probe_during_interval AsyncProbes.assert_pop 100 300
     (AsyncProbes.fresh [true; true; true; true])).1
  = Some (Ok true)
  /\ AsyncProbes.user
       (AsyncProbes.probe_during_interval AsyncProbes.assert_pop 100 300
          (AsyncProbes.fresh [true; true; true; true])).2
     = [].
Proof. split; reflexivity. Qed.

Example probe_during_interval_fails_on_third_call :
  AsyncProbes.probe_during_interval AsyncProbes.value_error_on_false 100 500
    (AsyncProbes.fresh [true; true; false; true])
  = (Some (Raise (Exn ValueError "Something went wrong")),
     {| AsyncProbes.user := [true]; AsyncProbes.clock := 203;
        AsyncProbes.trace :=
          [ AsyncProbes.Checked 1 (Ok true);
            AsyncProbes.Slept 100;
            AsyncProbes.Checked 102 (Ok true);
            AsyncProbes.Slept 100;
            AsyncProbes.Checked 203 (Raise (Exn ValueError "Something went wrong")) ] |}).
Proof. reflexivity. Qed.

(* ===================================================================== *)
(** * More on the container manager                                       *)
(* ===================================================================== *)

Section StartOutcomes.
Context {E : Type} `{!Engine E}.
Import DockerContainer.

Variable log_message_on_container_start : M (State E t) string.

(** The record a manager [o] logs for [msg]. *)
Local Abbreviation info o msg := {| logger_name := class_name o; message := msg |}.

Lemma start_run_outcome (s : State E t) :
  repeated_keyword (_kwargs (self s)) = None ->
  _start s
  = match run (run_args (self s)) (engine (world s)) with
    | (Ok c, e') =>
        (Ok tt,
         emit (info (self s) ("Container started: " +:+ c_short_id c))
           (set_self (set_container (Some c))
              (sent (CallRun (run_args (self s))) e'
                 (emit (info (self s) ("Pulling image: " +:+ image (self s))) s))))
    | (Raise e, e') =>
        (Raise e,
         sent (CallRun (run_args (self s))) e'
           (emit (info (self s) ("Pulling image: " +:+ image (self s))) s))
    end.
Proof.
  intros Hk. unfold _start. run_monad. rewrite Hk.
  by destruct (run _ _) as [[c|e] e'].
Qed.


(** X2.  When the engine refuses to run the container of a manager that
    holds none, [start()] raises the engine's exception as it is, the
    hook is not consulted, only "Pulling image: <image>" was logged, and
    the manager still holds no container. *)
Theorem start_run_failure_leaves_no_handle (s : State E t) (e : exn) (e' : E) :
  _container (self s) = None ->
  repeated_keyword (_kwargs (self s)) = None ->
  run (run_args (self s)) (engine (world s)) = (Raise e, e') ->
  is_Exception e = true ->
  start log_message_on_container_start s
  = (Raise e,
     sent (CallRun (run_args (self s))) e'
       (emit (info (self s) ("Pulling image: " +:+ image (self s))) s))
  /\ _container (self (start log_message_on_container_start s).2) = None.
Proof.
  intros Hc Hk Hrun Hexc.
  pose proof (start_run_outcome s Hk) as Hs. rewrite Hrun in Hs.
  assert (Hstart : start log_message_on_container_start s
    = (Raise e,
       sent (CallRun (run_args (self s))) e'
         (emit (info (self s) ("Pulling image: " +:+ image (self s))) s))).
  { unfold start, try_except, start_body. unfold mbind, M_bind, bind.
    rewrite Hs, Hexc. unfold _forward_container_logs_to_logger.
    run_monad. by rewrite Hc. }
  split; [exact Hstart|]. by rewrite Hstart.
Qed.

(** X3.  [start()] never turns a failure into a return: it returns
    exactly when the body of its [try] returns, in the same state, and it
    raises whenever that body raises.  An exception that is not an
    [Exception] (KeyboardInterrupt, SystemExit) is raised as it is, from
    the state the body left, with no log forwarding. *)
Theorem start_never_swallows (s : State E t) :
  (forall s1, start_body log_message_on_container_start s = (Ok tt, s1) ->
     start log_message_on_container_start s = (Ok tt, s1))
  /\ (forall e s1, start_body log_message_on_container_start s = (Raise e, s1) ->
      exists e' s2, start log_message_on_container_start s = (Raise e', s2))
  /\ (forall e s1, start_body log_message_on_container_start s = (Raise e, s1) ->
      is_Exception e = false ->
      start log_message_on_container_start s = (Raise e, s1)).
Proof.
  unfold start, try_except. split; [|split].
  - by intros s1 ->.
  - intros e s1 ->. destruct (is_Exception e); [|by eauto].
    unfold mbind, M_bind, bind, raise.
    destruct (_forward_container_logs_to_logger s1) as [[[]|e'] s2]; eauto.
  - by intros e s1 -> ->.
Qed.

End StartOutcomes.


Lemma start_run_failure_leaves_no_handle_witness :
  (DockerContainer.start Scenario.working_message Scenario.missing_image).1
  = Raise (Exn ImageNotFound "No such image: missing:latest")
  /\ DockerContainer._container
       (self (DockerContainer.start Scenario.working_message Scenario.missing_image).2)
     = None.
Proof.
  destruct (start_run_failure_leaves_no_handle Scenario.working_message
              Scenario.missing_image
              (Exn ImageNotFound "No such image: missing:latest") Sim.engine0)
    as [Hs Hc]; try (vm_compute; reflexivity).
  split; [by rewrite Hs|exact Hc].
Defined.

Section WithoutContainer.
Context {E : Type} `{!Engine E}.
Import DockerContainer.

(** X4.  On a manager that holds no container, both IP getters and
    [restart()] raise [AttributeError] (for the attribute they were about
    to read, [id] or [restart]) and leave the state as it was, so nothing
    is sent to the engine.  [get_container_host_ip] still answers when the
    engine reports no host ("localhost") or when the gateway is not
    consulted (outside a container, or with DOCKER_HOST set), and raises
    that [AttributeError] otherwise. *)
Theorem operations_without_container (s : State E t) :
  _container (self s) = None ->
  get_container_internal_ip s = (Raise (no_attribute "id"), s)
  /\ get_container_gateway_ip s = (Raise (no_attribute "id"), s)
  /\ restart s = (Raise (no_attribute "restart"), s)
  /\ get_container_host_ip s
     = (match host (engine (world s)) with
        | Some (String _ _ as h) =>
            if dockerenv (world s)
               && negb (truthy (environ (world s) !! "DOCKER_HOST"))
            then Raise (no_attribute "id")
            else Ok h
        | _ => Ok "localhost"
        end, s).
Proof.
  intros Hc.
  assert (Hg : get_container_gateway_ip s = (Raise (no_attribute "id"), s)).
  { unfold get_container_gateway_ip, wrapped, get_wrapped_container.
    run_monad. by rewrite Hc. }
  split; [|split; [exact Hg|split]].
  - unfold get_container_internal_ip, wrapped, get_wrapped_container.
    run_monad. by rewrite Hc.
  - unfold restart, wrapped, get_wrapped_container. run_monad. by rewrite Hc.
  - unfold get_container_host_ip.
    unfold mbind, M_bind, bind, query, inside_container, getenv, gets, mret,
      M_ret, ret.
    destruct (host (engine (world s))) as [[|a h]|]; try done.
    destruct (dockerenv (world s)); simpl; [|done].
    destruct (truthy (environ (world s) !! "DOCKER_HOST")); simpl; [done|].
    by rewrite Hg.
Qed.

(** X5.  The two IP getters fail alike: whatever the state, one raises an
    exception exactly when the other raises the same one (no container,
    container unknown to the engine, network not attached), and neither
    changes the state. *)
Theorem ip_getters_fail_alike (s : State E t) (e : exn) :
  ((get_container_internal_ip s).1 = Raise e
   <-> (get_container_gateway_ip s).1 = Raise e)
  /\ (get_container_internal_ip s).2 = s
  /\ (get_container_gateway_ip s).2 = s.
Proof.
  unfold get_container_internal_ip, get_container_gateway_ip, wrapped,
    get_wrapped_container.
  run_monad.
  destruct (_container (self s)) as [c|]; simpl; [|done].
  destruct (get_container (c_id c) (engine (world s))) as [i|e0]; simpl; [|done].
  by destruct (Networks i !! network (self s)).
Qed.

End WithoutContainer.

Lemma operations_without_container_witness :
  DockerContainer.get_container_internal_ip (Scenario.working Scenario.in_sibling)
  = (Raise (DockerContainer.no_attribute "id"), Scenario.working Scenario.in_sibling)
  /\ (DockerContainer.get_container_host_ip (Scenario.working Scenario.on_host)).1
     = Ok "172.17.0.1".
Proof.
  split.
  - apply (operations_without_container (Scenario.working Scenario.in_sibling)).
    reflexivity.
  - destruct (operations_without_container (Scenario.working Scenario.on_host))
      as (_ & _ & _ & H); [reflexivity|].
    rewrite H. reflexivity.
Defined.

Section LogForwarding.
Context {E : Type} `{!Engine E}.
Import DockerContainer.

Lemma split_never_empty (sep : ascii) (s : string) : split sep s <> [].
Proof.
  destruct s as [|c s]; simpl; [done|].
  destruct (Ascii.eqb c sep); [done|]. by destruct (split sep s).
Qed.

(** Joining the pieces of [s.split(sep)] with [sep] gives [s] back. *)
Lemma concat_split (sep : ascii) (s : string) :
  String.concat (String sep EmptyString) (split sep s) = s.
Proof.
  induction s as [|c s IH]; simpl; [done|].
  destruct (Ascii.eqb c sep) eqn:Hc.
  - apply Ascii.eqb_eq in Hc. subst c.
    pose proof (split_never_empty sep s) as Hne.
    destruct (split sep s) as [|hd tl]; [done|].
    simpl in *. by rewrite IH.
  - pose proof (split_never_empty sep s) as Hne.
    destruct (split sep s) as [|hd tl]; [done|].
    destruct tl as [|hd' tl]; simpl in *; by rewrite <- IH.
Qed.

(** The number of pieces is one more than the number of separators. *)
Lemma length_split (sep : ascii) (s : string) :
  length (split sep s)
  = S (count_occ ascii_dec (list_ascii_of_string s) sep).
Proof.
  induction s as [|c s IH]; simpl; [done|].
  destruct (Ascii.eqb c sep) eqn:Hc.
  - apply Ascii.eqb_eq in Hc. subst c.
    destruct (ascii_dec sep sep); [|done]. simpl. by rewrite IH.
  - apply Ascii.eqb_neq in Hc.
    destruct (ascii_dec c sep); [done|].
    pose proof (split_never_empty sep s) as Hne.
    destruct (split sep s) as [|hd tl]; [done|]. simpl in *. done.
Qed.

(** When forwarding raises, nothing has been logged yet. *)
Lemma forward_raises_in_place (s : State E t) (e : exn) (s1 : State E t) :
  _forward_container_logs_to_logger s = (Raise e, s1) -> s1 = s.
Proof.
  unfold _forward_container_logs_to_logger.
  unfold mbind, M_bind, bind, gets, query, lift, mret, M_ret, ret. simpl.
  destruct (_container (self s)) as [c|]; simpl; [|done].
  destruct (logs c true (engine (world s))) as [raw|e0]; simpl;
    [|by intros [= _ <-]].
  destruct (decode raw) as [text|e0]; simpl; [|by intros [= _ <-]].
  by rewrite for_each_logger_info.
Qed.

(** X6.  Log forwarding only ever appends to the logger: whatever it
    meets, it leaves the manager, the engine, the environment and the
    requests sent as they were; and when it raises (the logs cannot be
    fetched or decoded) it has logged nothing. *)
Theorem forwarding_only_appends_logs (s : State E t) :
  let s' := (_forward_container_logs_to_logger s).2 in
  self s' = self s
  /\ engine (world s') = engine (world s)
  /\ environ (world s') = environ (world s)
  /\ dockerenv (world s') = dockerenv (world s)
  /\ calls (world s') = calls (world s)
  /\ (exists records, log_sink (world s') = log_sink (world s) ++ records)
  /\ (forall e, (_forward_container_logs_to_logger s).1 = Raise e -> s' = s).
Proof.
  unfold _forward_container_logs_to_logger.
  unfold mbind, M_bind, bind, gets, query, lift, mret, M_ret, ret. simpl.
  destruct (_container (self s)) as [c|]; simpl.
  - destruct (logs c true (engine (world s))) as [raw|e0]; simpl.
    + destruct (decode raw) as [text|e0]; simpl.
      * rewrite for_each_logger_info. simpl.
        repeat split; try done. by eexists.
      * repeat split; try done. exists []. by rewrite app_nil_r.
    + repeat split; try done. exists []. by rewrite app_nil_r.
  - repeat split; try done. exists []. by rewrite app_nil_r.
Qed.

(** X7.  When the manager holds a container whose logs the engine hands
    out and that decode, forwarding logs them line by line on the
    manager's logger: one record more than the text has newlines (so one
    empty record for an empty log), in order, and the messages joined
    with newlines are the decoded text again. *)
Theorem forwarding_keeps_every_line (s : State E t) (c : Container)
    (raw text : string) :
  _container (self s) = Some c ->
  logs c true (engine (world s)) = Ok raw ->
  decode raw = Ok text ->
  exists s',
    _forward_container_logs_to_logger s = (Ok tt, s')
    /\ log_sink (world s') = log_sink (world s) ++ forwarded (self s) text
    /\ Forall (fun r => logger_name r = class_name (self s)) (forwarded (self s) text)
    /\ length (forwarded (self s) text)
       = S (count_occ ascii_dec (list_ascii_of_string text) "010"%char)
    /\ String.concat (String "010" EmptyString)
         (map message (forwarded (self s) text)) = text.
Proof.
  intros Hc Hl Hd. eexists. split; [by eapply forward_with_container|].
  split; [done|]. unfold forwarded. split; [|split].
  - apply Forall_forall. intros r Hr. apply list_elem_of_fmap in Hr.
    by destruct Hr as (l & -> & _).
  - by rewrite length_map, length_split.
  - rewrite map_map. simpl. rewrite map_id. apply concat_split.
Qed.

End LogForwarding.

Lemma forwarding_keeps_every_line_witness :
  exists s',
    DockerContainer._forward_container_logs_to_logger Scenario.chatty_started
    = (Ok tt, s')
    /\ map message
         (DockerContainer.forwarded (self Scenario.chatty_started)
            "ready
listening
")
       = ["ready"; "listening"; ""].
Proof.
  destruct (forwarding_keeps_every_line Scenario.chatty_started
              {| c_id := "anonymous"; c_short_id := "anonymous" |}
              "ready
listening
" "ready
listening
") as (s' & Hf & _); try (vm_compute; reflexivity).
  exists s'. split; [exact Hf|reflexivity].
Defined.

Section StopOrder.
Context {E : Type} `{!Engine E}.
Import DockerContainer.

Variable super_stop : bool -> bool -> M (State E t) unit.

(** X8.  [stop()] works in a fixed order, whatever the base class's
    [stop] does: the logs are forwarded first; when that raises, the base
    class's [stop] is not reached and the manager keeps its container;
    when the base class's [stop] (called with force and delete_volume
    both true) raises, its exception comes out and the container is not
    cleared by [stop()]; only after it returned is the manager's
    container set to [None]. *)
Theorem stop_forwards_then_removes_then_clears (s : State E t) :
  (forall e s1, _forward_container_logs_to_logger s = (Raise e, s1) ->
     stop super_stop s = (Raise e, s) /\ s1 = s)
  /\ (forall s1 e s2, _forward_container_logs_to_logger s = (Ok tt, s1) ->
      super_stop true true s1 = (Raise e, s2) ->
      stop super_stop s = (Raise e, s2))
  /\ (forall s1 s2, _forward_container_logs_to_logger s = (Ok tt, s1) ->
      super_stop true true s1 = (Ok tt, s2) ->
      stop super_stop s = (Ok tt, set_self (set_container None) s2)
      /\ _container (self (stop super_stop s).2) = None).
Proof.
  split; [|split].
  - intros e s1 Hf.
    pose proof (forward_raises_in_place _ _ _ Hf) as ->.
    split; [|done]. unfold stop, mbind, M_bind, bind. by rewrite Hf.
  - intros s1 e s2 Hf Hs. unfold stop, _stop, mbind, M_bind, bind.
    by rewrite Hf, Hs.
  - intros s1 s2 Hf Hs.
    assert (Hstop : stop super_stop s = (Ok tt, set_self (set_container None) s2)).
    { unfold stop, _stop, mbind, M_bind, bind. by rewrite Hf, Hs. }
    split; [exact Hstop|]. by rewrite Hstop.
Qed.

End StopOrder.

Section Construction.
Context {E : Type} `{!Engine E}.
Import DockerContainer.

(** X9.  The network name [__init__] settles on is never empty: an empty
    [network] argument and an empty TESTCONTAINER_DOCKER_NETWORK are
    passed over like absent ones, and "bridge" is the last resort.  It is
    always one of the three (the argument, the variable's value,
    "bridge"), it is "bridge" exactly when neither of the two is truthy,
    and it is the [network] keyword of the call to [run], which is
    therefore never empty either. *)
Theorem network_name_is_never_empty (cls img : string) (net : option string)
    (kwargs : gmap string string) (w : World E) :
  let o := __init__ cls img net kwargs w in
  let from_env := environ w !! "TESTCONTAINER_DOCKER_NETWORK" in
  truthy_str (network o) = true
  /\ (net = Some (network o) \/ from_env = Some (network o) \/ network o = "bridge")
  /\ (truthy net = false -> truthy from_env = false -> network o = "bridge")
  /\ (net = Some "" -> network o <> "")
  /\ truthy (run_kwargs (run_args o) !! "network") = true.
Proof.
  intros o from_env. subst o from_env.
  assert (Hn : truthy_str (network (__init__ cls img net kwargs w)) = true).
  { unfold __init__, or_. simpl.
    destruct net as [[|? ?]|]; simpl; try done;
      by destruct (environ w !! "TESTCONTAINER_DOCKER_NETWORK") as [[|? ?]|]. }
  split; [exact Hn|]. split; [|split; [|split]].
  - unfold __init__, or_. simpl.
    destruct net as [[|? ?]|]; simpl; auto;
      destruct (environ w !! "TESTCONTAINER_DOCKER_NETWORK") as [[|? ?]|];
      simpl; auto.
  - unfold __init__, or_. simpl.
    destruct net as [[|? ?]|]; simpl; try done;
      by destruct (environ w !! "TESTCONTAINER_DOCKER_NETWORK") as [[|? ?]|].
  - intros _ Hempty. by rewrite Hempty in Hn.
  - unfold run_args at 1. cbn [run_kwargs].
    unfold __init__ at 1. cbn [_kwargs]. rewrite lookup_insert_eq. exact Hn.
Qed.

End Construction.

(* ===================================================================== *)
(** * More on the image builder                                           *)
(* ===================================================================== *)

Section BuildOutcomes.
Context {E : Type} `{!Engine E}.
Import EphemeralDockerImage.

Lemma buildkit_keeps_manager (s : State E t) :
  self (_build_with_docker_buildkit s).2 = self s.
Proof. apply buildkit_sends_one_command. Qed.

Lemma docker_client_keeps_manager (s : State E t) :
  self (_build_with_docker_client s).2 = self s.
Proof.
  unfold _build_with_docker_client. run_monad.
  by destruct (images_build _ _).
Qed.

(** X10.  [build_image] changes the manager in one way only.  With
    [built] the outcome of the strategy the toggle selects: when it
    returns the image [i], [build_image] returns and the manager's image
    is that [i], its dockerfile, context and target as before; when it
    raises, [build_image] raises the same exception and the manager is
    exactly as before.  Under the direct strategy [i] is the image
    [images.build] returned; under the builder strategy it is the image
    [images.get] returned for the identifier the command printed. *)
Theorem build_image_records_only_a_built_image (s : State E t) :
  let toggle := environ (world s) !! "DOCKER_BUILDKIT" in
  let built := if truthy toggle then _build_with_docker_buildkit s
               else _build_with_docker_client s in
  (forall i, built.1 = Ok i ->
     build_image s = (Ok tt, set_self (set_image i) built.2)
     /\ self (build_image s).2 = set_image i (self s))
  /\ (forall e, built.1 = Raise e ->
      build_image s = (Raise e, built.2)
      /\ self (build_image s).2 = self s)
  /\ (truthy toggle = false ->
      built.1 = (images_build (build_args (self s)) (engine (world s))).1)
  /\ (truthy toggle = true ->
      forall p e' text,
        exec (buildkit_cmd (self s)) (engine (world s)) = (Ok p, e') ->
        returncode p = 0%Z ->
        decode (stdout p) = Ok text ->
        built.1 = images_get (strip text) e').
Proof.
  intros toggle built.
  assert (Hself : self built.2 = self s).
  { subst built. destruct (truthy toggle);
      [apply buildkit_keeps_manager | apply docker_client_keeps_manager]. }
  assert (Hb : build_image s
               = match built.1 with
                 | Ok i => (Ok tt, set_self (set_image i) built.2)
                 | Raise e => (Raise e, built.2)
                 end).
  { rewrite build_image_branch. subst built. fold toggle.
    unfold mbind, M_bind, bind, modify.
    destruct (truthy toggle);
      [destruct (_build_with_docker_buildkit s) as [[i|e] s1]
      |destruct (_build_with_docker_client s) as [[i|e] s1]]; done. }
  split; [|split; [|split]].
  - intros i Hi. rewrite Hb, Hi. split; [done|]. simpl. by rewrite Hself.
  - intros e He. rewrite Hb, He. split; [done|]. simpl. exact Hself.
  - intros Ht. subst built. rewrite Ht.
    unfold _build_with_docker_client. run_monad.
    by destruct (images_build _ _).
  - intros Ht p e' text Hx Hrc Hd. subst built. rewrite Ht.
    unfold _build_with_docker_buildkit, subprocess_run. run_monad.
    rewrite Hx. simpl. rewrite Hrc. simpl. by rewrite Hd.
Qed.

(** X11.  When the build fails on entering a scope, the [with] statement
    raises the build's exception from the state the build left: the body
    is not run and no removal is sent. *)
Theorem failed_build_skips_body_and_removal {B : Type} (body : scope_body B)
    (s : State E t) (e : exn) :
  (build_image s).1 = Raise e ->
  scoped body s = (Raise e, (build_image s).2)
  /\ calls (world (scoped body s).2) = calls (world (build_image s).2).
Proof.
  intros Hb.
  assert (Hs : scoped body s = (Raise e, (build_image s).2)).
  { unfold scoped, with_, __enter__, mbind, M_bind, bind.
    destruct (build_image s) as [r s1]. simpl in Hb. by subst r. }
  split; [exact Hs|]. by rewrite Hs.
Qed.

(** X12.  When the removal at the end of a scope raises, the [with]
    statement raises the removal's exception, whether the body returned
    or raised: the body's own exception is lost. *)
Theorem removal_failure_replaces_outcome {B : Type} (body : scope_body B)
    (s s1 : State E t) (i : Image) (e' : exn) :
  __enter__ s = (Ok i, s1) ->
  (images_remove (image_id i) (engine (world (run_body body i s1).2))).1 = Raise e' ->
  (scoped body s).1 = Raise e'.
Proof.
  intros Henter Hrm.
  pose proof (enter_sets_image _ _ _ Henter) as Hi.
  assert (Hi' : image (self (run_body body i s1).2) = Some i).
  { unfold run_body. by destruct (body i (world s1)). }
  unfold scoped, with_. rewrite Henter.
  destruct (run_body body i s1) as [[b|e] s2]; simpl in *;
    rewrite (exit_removes _ _ _ Hi'), Hrm; done.
Qed.

(** X13.  [remove_image] never forgets the image: after it, the manager
    is as before, so calling it again sends the same removal again.  On a
    manager that has built nothing it raises [AttributeError] and sends
    nothing. *)
Theorem remove_image_keeps_the_handle (s : State E t) :
  (image (self s) = None ->
     remove_image s
     = (Raise (Exn AttributeError
                 "'EphemeralDockerImage' object has no attribute 'image'"), s))
  /\ (forall i, image (self s) = Some i ->
      self (remove_image s).2 = self s
      /\ calls (world (remove_image s).2)
         = calls (world s) ++ [CallImagesRemove (image_id i)]
      /\ calls (world (remove_image (remove_image s).2).2)
         = calls (world s)
           ++ [CallImagesRemove (image_id i); CallImagesRemove (image_id i)]).
Proof.
  split.
  - intros Hi. unfold remove_image, get_image. run_monad. by rewrite Hi.
  - intros i Hi.
    assert (Hone : forall s0, image (self s0) = Some i ->
              self (remove_image s0).2 = self s0
              /\ calls (world (remove_image s0).2)
                 = calls (world s0) ++ [CallImagesRemove (image_id i)]).
    { intros s0 H0. unfold remove_image, get_image. run_monad. rewrite H0.
      simpl. by destruct (images_remove _ _). }
    destruct (Hone s Hi) as [Hs Hc]. split; [done|]. split; [done|].
    destruct (Hone (remove_image s).2) as [_ Hc2]; [by rewrite Hs|].
    rewrite Hc2, Hc. by rewrite <- app_assoc.
Qed.

End BuildOutcomes.

Lemma failed_build_skips_body_and_removal_witness :
  (EphemeralDockerImage.scoped Scenario.body_passes
     {| self := Scenario.hello_world;
        world := Sim.world0 Scenario.unbuildable_engine ∅ false |}).1
  = Raise (Exn BuildError "build failed")
  /\ calls (world (EphemeralDockerImage.scoped Scenario.body_passes
                     {| self := Scenario.hello_world;
                        world := Sim.world0 Scenario.unbuildable_engine ∅ false |}).2)
     = [CallImagesBuild (EphemeralDockerImage.build_args Scenario.hello_world)].
Proof.
  destruct (failed_build_skips_body_and_removal Scenario.body_passes
              {| self := Scenario.hello_world;
                 world := Sim.world0 Scenario.unbuildable_engine ∅ false |}
              (Exn BuildError "build failed")) as [Hs Hc];
    [vm_compute; reflexivity|].
  split; [by rewrite Hs|]. rewrite Hc. vm_compute. reflexivity.
Defined.

Lemma removal_failure_replaces_outcome_witness :
  (EphemeralDockerImage.scoped Scenario.body_removes_image
     {| self := Scenario.hello_world; world := Scenario.toggle_off |}).1
  = Raise (Exn ImageNotFound "No such image: sha256:.").
Proof.
  assert (Henter :
    EphemeralDockerImage.__enter__
      {| self := Scenario.hello_world; world := Scenario.toggle_off |}
    = (Ok {| image_id := "sha256:." |},
       (EphemeralDockerImage.__enter__
          {| self := Scenario.hello_world; world := Scenario.toggle_off |}).2))
    by (vm_compute; reflexivity).
  apply (removal_failure_replaces_outcome Scenario.body_removes_image _ _ _ _ Henter).
  vm_compute. reflexivity.
Defined.

(* ===================================================================== *)
(** * The SNS and SQS test client                                         *)
(* ===================================================================== *)

Section TestClient.
Context {W : Type} `{!SNSSQS.Clients W}.
Context {D P : Type}.
Import SNSSQS.

Variable message_of_body : string -> result string.
Variable is_message_class : P -> bool.

Ltac run_client :=
  unfold and_then, call, done, fail, pure, suppress_return, called in *;
  simpl in *.

Lemma find_first_match {X} (f : X -> bool) (before : list X) (x : X) (after : list X) :
  Forall (fun a => f a = false) before -> f x = true ->
  List.find f (before ++ x :: after) = Some x.
Proof.
  intros Hb Hx. induction Hb as [|a before Ha Hb IH]; simpl.
  - by rewrite Hx.
  - by rewrite Ha.
Qed.

Lemma find_no_match {X} (f : X -> bool) (l : list X) :
  Forall (fun a => f a = false) l -> List.find f l = None.
Proof.
  induction 1 as [|a l Ha Hl IH]; simpl; [done|]. by rewrite Ha.
Qed.

Lemma get_topic_arn_found (topic arn : string) (s : St W) (before after : list string)
    (w' : W) :
  sns_list_topics (aws s) = (Done (before ++ arn :: after), w') ->
  Forall (fun a => endswith a topic = false) before ->
  endswith arn topic = true -> arn <> "" ->
  get_topic_arn topic s = (Done arn, called ListTopics w' s).
Proof.
  intros Hl Hb Ha Hne. unfold get_topic_arn. run_client. rewrite Hl.
  rewrite find_first_match by done. simpl. by destruct arn.
Qed.

Lemma get_topic_arn_missing (topic : string) (s : St W) (arns : list string) (w' : W) :
  sns_list_topics (aws s) = (Done arns, w') ->
  Forall (fun a => endswith a topic = false) arns ->
  get_topic_arn topic s = (Fail (TopicDoesNotExist topic), called ListTopics w' s).
Proof.
  intros Hl Hb. unfold get_topic_arn. run_client. rewrite Hl.
  by rewrite find_no_match.
Qed.

(** X14.  [get_topic_arn] lists the topics once and answers with the
    first listed ARN that ends with the name asked for, so a topic whose
    name merely ends with that name is found too; when no listed ARN ends
    with it, it raises [TopicDoesNotExist] for the name.  An error of the
    listing itself is raised as it is. *)
Theorem get_topic_arn_first_suffix_match (topic : string) (s : St W) :
  (forall before arn after w',
     sns_list_topics (aws s) = (Done (before ++ arn :: after), w') ->
     Forall (fun a => endswith a topic = false) before ->
     endswith arn topic = true -> arn <> "" ->
     get_topic_arn topic s = (Done arn, called ListTopics w' s))
  /\ (forall arns w',
      sns_list_topics (aws s) = (Done arns, w') ->
      Forall (fun a => endswith a topic = false) arns ->
      get_topic_arn topic s = (Fail (TopicDoesNotExist topic), called ListTopics w' s))
  /\ (forall err w',
      sns_list_topics (aws s) = (Fail err, w') ->
      get_topic_arn topic s = (Fail err, called ListTopics w' s)).
Proof.
  split; [|split].
  - intros. by eapply get_topic_arn_found.
  - intros. by eapply get_topic_arn_missing.
  - intros err w' Hl. unfold get_topic_arn. run_client. by rewrite Hl.
Qed.

(** X15.  [create_topic] creates only what is missing.  When a listed ARN
    ends with the name it returns that ARN and has sent the listing alone;
    when none does it sends one [create_topic] for the name, with the two
    FIFO attributes when [fifo] is set and with no attributes otherwise,
    and returns the ARN of the response; when the listing fails it raises
    that error and creates nothing. *)
Theorem create_topic_creates_only_what_is_missing (topic : string) (fifo : bool)
    (s : St W) :
  let attributes := if fifo then fifo_topic_attributes else ∅ in
  (forall before arn after w',
     sns_list_topics (aws s) = (Done (before ++ arn :: after), w') ->
     Forall (fun a => endswith a topic = false) before ->
     endswith arn topic = true -> arn <> "" ->
     create_topic topic fifo s = (Done arn, called ListTopics w' s))
  /\ (forall arns w',
      sns_list_topics (aws s) = (Done arns, w') ->
      Forall (fun a => endswith a topic = false) arns ->
      create_topic topic fifo s
      = ((sns_create_topic topic attributes w').1,
         called (CreateTopic topic attributes)
           (sns_create_topic topic attributes w').2 (called ListTopics w' s)))
  /\ (forall err w',
      sns_list_topics (aws s) = (Fail err, w') ->
      is_TopicDoesNotExist err = false ->
      create_topic topic fifo s = (Fail err, called ListTopics w' s)).
Proof.
  intros attributes. split; [|split].
  - intros before arn after w' Hl Hb Ha Hne.
    unfold create_topic, suppress_return.
    by rewrite (get_topic_arn_found _ _ _ _ _ _ Hl Hb Ha Hne).
  - intros arns w' Hl Hb. unfold create_topic, suppress_return.
    rewrite (get_topic_arn_missing _ _ _ _ Hl Hb). simpl. fold attributes.
    unfold call, called. simpl.
    by destruct (sns_create_topic topic attributes w').
  - intros err w' Hl Herr. unfold create_topic, suppress_return, get_topic_arn.
    run_client. rewrite Hl. by rewrite Herr.
Qed.

Lemma get_queue_url_unknown (queue code : string) (s : St W) (w' : W) :
  sqs_get_queue_url queue (aws s) = (Fail (ClientError code), w') ->
  get_queue_url queue s
  = (Fail (QueueDoesNotExist queue code), called (GetQueueUrl queue) w' s).
Proof.
  intros Hu. unfold get_queue_url. run_client. by rewrite Hu.
Qed.

Lemma get_queue_url_known (queue url : string) (s : St W) (w' : W) :
  sqs_get_queue_url queue (aws s) = (Done url, w') ->
  get_queue_url queue s = (Done url, called (GetQueueUrl queue) w' s).
Proof.
  intros Hu. unfold get_queue_url. run_client. by rewrite Hu.
Qed.

(** X16.  For a queue whose URL lookup ends in a [ClientError],
    [get_queue_url], [get_queue_attributes] and [get_queue_arn] all raise
    [QueueDoesNotExist] for the queue name (with that error as its cause)
    after the one lookup, and ask for no attributes.  Any other error of
    the lookup is raised as it is. *)
Theorem unknown_queue_is_reported_by_name (queue : string) (s : St W) :
  (forall code w',
     sqs_get_queue_url queue (aws s) = (Fail (ClientError code), w') ->
     let s' := called (GetQueueUrl queue) w' s in
     get_queue_url queue s = (Fail (QueueDoesNotExist queue code), s')
     /\ (forall names,
           get_queue_attributes queue names s = (Fail (QueueDoesNotExist queue code), s'))
     /\ get_queue_arn queue s = (Fail (QueueDoesNotExist queue code), s'))
  /\ (forall err w',
      sqs_get_queue_url queue (aws s) = (Fail err, w') ->
      (forall code, err <> ClientError code) ->
      get_queue_url queue s = (Fail err, called (GetQueueUrl queue) w' s)).
Proof.
  split.
  - intros code w' Hu s'.
    pose proof (get_queue_url_unknown _ _ _ _ Hu) as Hq. fold s' in Hq.
    split; [exact Hq|]. split.
    + intros names. unfold get_queue_attributes, and_then. by rewrite Hq.
    + unfold get_queue_arn, get_queue_attributes, and_then. by rewrite Hq.
  - intros err w' Hu Hne. unfold get_queue_url. run_client. rewrite Hu.
    destruct err; try done. by destruct (Hne code).
Qed.

(** X17.  [create_queue] creates only what is missing, and tells a
    missing queue from a failing service by the URL lookup alone.  When
    the lookup and the attributes succeed it returns the [QueueArn] and
    has created nothing.  When the URL lookup ends in a [ClientError] it
    goes on to send [create_queue] for the name (with the two FIFO
    attributes when [fifo] is set, none otherwise).  A [ClientError] of
    the attributes call, and a response without [QueueArn], are raised
    and nothing is created. *)
Theorem create_queue_creates_only_what_is_missing (queue : string) (fifo : bool)
    (s : St W) :
  let attributes := if fifo then fifo_queue_attributes else ∅ in
  (forall url w1 attrs w2,
     sqs_get_queue_url queue (aws s) = (Done url, w1) ->
     sqs_get_queue_attributes url ["QueueArn"] w1 = (Done attrs, w2) ->
     let s2 := called (GetQueueAttributes url ["QueueArn"]) w2
                 (called (GetQueueUrl queue) w1 s) in
     (forall arn, attrs !! "QueueArn" = Some arn ->
        create_queue queue fifo s = (Done arn, s2))
     /\ (attrs !! "QueueArn" = None ->
         create_queue queue fifo s = (Fail (KeyError "QueueArn"), s2)))
  /\ (forall url w1 code w2,
      sqs_get_queue_url queue (aws s) = (Done url, w1) ->
      sqs_get_queue_attributes url ["QueueArn"] w1 = (Fail (ClientError code), w2) ->
      create_queue queue fifo s
      = (Fail (ClientError code),
         called (GetQueueAttributes url ["QueueArn"]) w2
           (called (GetQueueUrl queue) w1 s)))
  /\ (forall code w1,
      sqs_get_queue_url queue (aws s) = (Fail (ClientError code), w1) ->
      exists r s3,
        create_queue queue fifo s = (r, s3)
        /\ exists rest,
             requests s3
             = requests s ++ GetQueueUrl queue :: CreateQueue queue attributes :: rest).
Proof.
  intros attributes. split; [|split].
  - intros url w1 attrs w2 Hu Ha s2.
    pose proof (get_queue_url_known _ _ _ _ Hu) as Hq.
    split.
    + intros arn Harn.
      unfold create_queue, suppress_return, get_queue_arn, get_queue_attributes,
        and_then.
      rewrite Hq. unfold call, called, pure, item. simpl. rewrite Ha, Harn. done.
    + intros Harn.
      unfold create_queue, suppress_return, get_queue_arn, get_queue_attributes,
        and_then.
      rewrite Hq. unfold call, called, pure, item. simpl. rewrite Ha, Harn. done.
  - intros url w1 code w2 Hu Ha.
    pose proof (get_queue_url_known _ _ _ _ Hu) as Hq.
    unfold create_queue, suppress_return, get_queue_arn, get_queue_attributes,
      and_then.
    rewrite Hq. unfold call, called. simpl. by rewrite Ha.
  - intros code w1 Hu.
    pose proof (get_queue_url_unknown _ _ _ _ Hu) as Hq.
    unfold create_queue, suppress_return, get_queue_arn, get_queue_attributes,
      and_then.
    rewrite Hq. simpl. fold attributes.
    unfold call at 1. simpl.
    destruct (sqs_create_queue queue attributes w1) as [[[]|err] w2]; simpl.
    + unfold get_queue_url, call, pure. simpl.
      destruct (sqs_get_queue_url queue w2) as [[url|err] w3]; simpl.
      * destruct (sqs_get_queue_attributes url ["QueueArn"] w3) as [[attrs|err] w4];
          simpl.
        -- destruct (item attrs "QueueArn"); eexists _, _; (split; [done|]);
             simpl; eexists; rewrite <- !app_assoc; done.
        -- eexists _, _. split; [done|]. simpl. eexists.
           rewrite <- !app_assoc. done.
      * destruct err; eexists _, _; (split; [done|]); simpl; eexists;
          rewrite <- !app_assoc; done.
    + eexists _, _. split; [done|]. simpl. exists [].
      rewrite <- !app_assoc. done.
Qed.

(** X18.  [publish] looks the topic up first and publishes nothing when
    that fails (a missing topic is [TopicDoesNotExist], and the envelope
    is not consulted) or when the envelope cannot build the message.
    Otherwise it sends one [publish] to the ARN found, with the message
    the envelope built and with each optional keyword present exactly
    when its argument is truthy: no [MessageAttributes] for [None] or an
    empty dictionary, no [MessageDeduplicationId] or [MessageGroupId] for
    [None] or an empty string. *)
Theorem publish_sends_only_truthy_options (topic : string) (data : D)
    (envelope : Envelope D P) (message_attributes : option (gmap string string))
    (message_deduplication_id message_group_id : option string) (s : St W) :
  let went := publish topic data envelope message_attributes
                message_deduplication_id message_group_id s in
  (forall err s1, get_topic_arn topic s = (Fail err, s1) -> went = (Fail err, s1))
  /\ (forall arn s1 err,
      get_topic_arn topic s = (Done arn, s1) ->
      build_message envelope topic data = Fail err ->
      went = (Fail err, s1))
  /\ (forall arn s1 m,
      get_topic_arn topic s = (Done arn, s1) ->
      build_message envelope topic data = Done m ->
      exists args,
        went = ((sns_publish args (aws s1)).1,
                called (Publish args) (sns_publish args (aws s1)).2 s1)
        /\ TopicArn args = arn
        /\ Message args = m
        /\ MessageAttributes args
           = match message_attributes with
             | Some a => if decide (a = ∅) then None else Some a
             | None => None
             end
        /\ MessageDeduplicationId args
           = match message_deduplication_id with
             | Some (String _ _ as d) => Some d
             | _ => None
             end
        /\ MessageGroupId args
           = match message_group_id with
             | Some (String _ _ as g) => Some g
             | _ => None
             end).
Proof.
  intros went. subst went. unfold publish, and_then.
  split; [|split].
  - by intros err s1 ->.
  - intros arn s1 err -> Hb. unfold pure. by rewrite Hb.
  - intros arn s1 m -> Hb. unfold pure. rewrite Hb.
    exists (publish_args arn m message_attributes message_deduplication_id
              message_group_id).
    split.
    + unfold call, called. by destruct (sns_publish _ _).
    + unfold publish_args, truthy_dict. simpl. repeat split.
      * destruct message_attributes as [a|]; [|done].
        case_bool_decide; case_decide; done.
      * by destruct message_deduplication_id as [[|? ?]|].
      * by destruct message_group_id as [[|? ?]|].
Qed.

Lemma requests_after_deletes (url : string) (handles : list string) (s : St W) :
  requests (after_deletes url handles s)
  = requests s ++ map (DeleteMessage url) handles.
Proof.
  revert s. induction handles as [|h handles IH]; intros s; simpl.
  - by rewrite app_nil_r.
  - unfold after_deletes in *. simpl. rewrite IH. unfold call.
    destruct (sqs_delete_message url h (aws s)). simpl.
    by rewrite <- app_assoc.
Qed.

Lemma receive_each_all (envelope : Envelope D P) (url : string)
    (proto_class : option P) (msgs : list ReceivedMessage) (datas : list D)
    (s : St W) :
  (forall h w, (sqs_delete_message url h w).1 = Done tt) ->
  Forall2 (fun m d => parsed message_of_body envelope proto_class m = Done d)
    msgs datas ->
  receive_each message_of_body envelope url proto_class msgs s
  = (Done datas, after_deletes url (map ReceiptHandle msgs) s).
Proof.
  intros Hdel Hall. revert s.
  induction Hall as [|m d msgs datas Hm Hall IH]; intros s; [done|].
  simpl. unfold parsed in Hm. unfold and_then at 1, pure at 1.
  destruct (message_of_body (Body m)) as [payload|err]; [|done].
  unfold and_then at 1, pure at 1. rewrite Hm.
  unfold and_then at 1, call at 1.
  specialize (Hdel (ReceiptHandle m) (aws s)).
  unfold after_deletes. simpl. unfold call at 2.
  destruct (sqs_delete_message url (ReceiptHandle m) (aws s)) as [r w].
  simpl in Hdel. subst r. unfold and_then. rewrite IH. done.
Qed.

Lemma receive_each_stops (envelope : Envelope D P) (url : string)
    (proto_class : option P) (before : list ReceivedMessage) (datas : list D)
    (m : ReceivedMessage) (after : list ReceivedMessage) (err : error) (s : St W) :
  (forall h w, (sqs_delete_message url h w).1 = Done tt) ->
  Forall2 (fun m d => parsed message_of_body envelope proto_class m = Done d)
    before datas ->
  parsed message_of_body envelope proto_class m = Fail err ->
  receive_each message_of_body envelope url proto_class (before ++ m :: after) s
  = (Fail err, after_deletes url (map ReceiptHandle before) s).
Proof.
  intros Hdel Hall Hbad. revert s.
  induction Hall as [|m0 d before datas Hm Hall IH]; intros s.
  - simpl. unfold parsed in Hbad. unfold and_then at 1, pure at 1.
    destruct (message_of_body (Body m)) as [payload|err0].
    + unfold and_then at 1, pure at 1. by rewrite Hbad.
    + by simplify_eq.
  - simpl. unfold parsed in Hm. unfold and_then at 1, pure at 1.
    destruct (message_of_body (Body m0)) as [payload|err0]; [|done].
    unfold and_then at 1, pure at 1. rewrite Hm.
    unfold and_then at 1, call at 1.
    specialize (Hdel (ReceiptHandle m0) (aws s)).
    unfold after_deletes. simpl. unfold call at 2.
    destruct (sqs_delete_message url (ReceiptHandle m0) (aws s)) as [r w].
    simpl in Hdel. subst r. unfold and_then. rewrite IH. done.
Qed.

(** X19.  [receive] on a queue whose URL is [url], when deleting a
    message never fails.  With no messages in the response (none, or an
    empty list) it returns the empty list and deletes nothing.  With
    messages that all parse it returns their data in the order received
    and deletes every message, one call each, in that order.  When a
    message does not parse, [receive] raises that error: the messages
    before it are already deleted, and that message and the ones after it
    are not. *)
Theorem receive_parses_then_deletes_in_order (queue url : string)
    (envelope : Envelope D P) (message_type : P) (max_messages : Z)
    (s : St W) (w1 w2 : W) (response : option (list ReceivedMessage)) :
  sqs_get_queue_url queue (aws s) = (Done url, w1) ->
  sqs_receive_message url max_messages w1 = (Done response, w2) ->
  (forall h w, (sqs_delete_message url h w).1 = Done tt) ->
  let proto_class := if is_message_class message_type then Some message_type
                     else None in
  let s2 := called (ReceiveMessage url max_messages) w2
              (called (GetQueueUrl queue) w1 s) in
  let went := receive message_of_body is_message_class queue envelope
                message_type max_messages s in
  (response = None \/ response = Some [] -> went = (Done [], s2))
  /\ (forall msgs datas,
      response = Some msgs ->
      Forall2 (fun m d => parsed message_of_body envelope proto_class m = Done d)
        msgs datas ->
      went.1 = Done datas
      /\ requests went.2
         = requests s2 ++ map (fun m => DeleteMessage url (ReceiptHandle m)) msgs)
  /\ (forall before datas m after err,
      response = Some (before ++ m :: after) ->
      Forall2 (fun m d => parsed message_of_body envelope proto_class m = Done d)
        before datas ->
      parsed message_of_body envelope proto_class m = Fail err ->
      went.1 = Fail err
      /\ requests went.2
         = requests s2 ++ map (fun m => DeleteMessage url (ReceiptHandle m)) before).
Proof.
  intros Hu Hr Hdel proto_class s2 went.
  assert (Hwent : went
    = match response with
      | None | Some [] => (Done [], s2)
      | Some msgs =>
          receive_each message_of_body envelope url proto_class msgs s2
      end).
  { subst went. unfold receive, and_then.
    rewrite (get_queue_url_known _ _ _ _ Hu).
    unfold call at 1, called at 1. simpl. rewrite Hr. simpl.
    by destruct response as [[|m msgs]|]. }
  split; [|split].
  - intros [-> | ->]; by rewrite Hwent.
  - intros msgs datas -> Hall. rewrite Hwent.
    destruct msgs as [|m msgs].
    + inversion Hall; subst. simpl. split; [done|]. symmetry. apply app_nil_r.
    + rewrite (receive_each_all _ _ _ _ _ _ Hdel Hall).
      split; [done|]. cbn [snd]. by rewrite requests_after_deletes, map_map.
  - intros before datas m after err -> Hall Hbad. rewrite Hwent.
    assert (Hne : exists m0 rest, before ++ m :: after = m0 :: rest)
      by (destruct before; eauto).
    destruct Hne as (m0 & rest & Heq).
    rewrite Heq, <- Heq.
    rewrite (receive_each_stops _ _ _ _ _ _ _ _ _ Hdel Hall Hbad).
    split; [done|]. cbn [snd]. by rewrite requests_after_deletes, map_map.
Qed.

(** X20.  [subscribe_to] first secures the topic, then the queue, then
    subscribes: when the topic cannot be had, no queue is looked up or
    created and nothing is subscribed; when the queue cannot be had,
    nothing is subscribed; otherwise it sends one [subscribe] of the queue
    ARN to the topic ARN, with the protocol "sqs" and with the attributes
    given, or none when they are [None] or empty. *)
Theorem subscribe_to_secures_topic_then_queue (topic queue : string)
    (subscribe_attributes : option (gmap string string)) (fifo : bool) (s : St W) :
  let went := subscribe_to topic queue subscribe_attributes fifo s in
  (forall err s1, create_topic topic fifo s = (Fail err, s1) -> went = (Fail err, s1))
  /\ (forall topic_arn s1 err s2,
      create_topic topic fifo s = (Done topic_arn, s1) ->
      create_queue queue fifo s1 = (Fail err, s2) ->
      went = (Fail err, s2))
  /\ (forall topic_arn s1 queue_arn s2,
      create_topic topic fifo s = (Done topic_arn, s1) ->
      create_queue queue fifo s1 = (Done queue_arn, s2) ->
      let attributes := default ∅ subscribe_attributes in
      went = ((sns_subscribe topic_arn "sqs" queue_arn attributes (aws s2)).1,
              called (Subscribe topic_arn "sqs" queue_arn attributes)
                (sns_subscribe topic_arn "sqs" queue_arn attributes (aws s2)).2 s2)).
Proof.
  intros went. subst went. unfold subscribe_to, and_then.
  split; [|split].
  - by intros err s1 ->.
  - by intros topic_arn s1 err s2 -> ->.
  - intros topic_arn s1 queue_arn s2 -> ->.
    assert (Ha : (if truthy_dict subscribe_attributes
                  then default ∅ subscribe_attributes else ∅)
                 = default ∅ subscribe_attributes).
    { unfold truthy_dict.
      destruct subscribe_attributes as [a|]; simpl; [|done].
      case_bool_decide; by subst. }
    rewrite Ha. unfold call, called.
    by destruct (sns_subscribe _ _ _ _ _).
Qed.

End TestClient.

Lemma receive_parses_then_deletes_in_order_witness :
  (SNSSQS.receive SimAws.body_as_message (fun _ : unit => false) "customers"
     SimAws.strict_envelope tt 10 (SimAws.fresh SimAws.service0)).1
  = SNSSQS.Fail (SNSSQS.OtherError (Exn ValueError "cannot parse"))
  /\ SNSSQS.requests
       (SNSSQS.receive SimAws.body_as_message (fun _ : unit => false) "customers"
          SimAws.strict_envelope tt 10 (SimAws.fresh SimAws.service0)).2
     = [ SNSSQS.GetQueueUrl "customers";
         SNSSQS.ReceiveMessage (SimAws.queue_url_of "customers") 10;
         SNSSQS.DeleteMessage (SimAws.queue_url_of "customers") "h1" ].
Proof.
  assert (Hdel : forall h w,
            (SNSSQS.sqs_delete_message (SimAws.queue_url_of "customers") h w).1
            = SNSSQS.Done tt) by (intros h w; reflexivity).
  assert (Hurl : SNSSQS.sqs_get_queue_url "customers"
                   (SNSSQS.aws (SimAws.fresh SimAws.service0))
                 = (SNSSQS.Done (SimAws.queue_url_of "customers"), SimAws.service0))
    by (vm_compute; reflexivity).
  assert (Hrecv : SNSSQS.sqs_receive_message (SimAws.queue_url_of "customers") 10
                    SimAws.service0
                  = (SNSSQS.Done
                       (Some [ {| SNSSQS.Body := "first"; SNSSQS.ReceiptHandle := "h1" |};
                               {| SNSSQS.Body := "broken"; SNSSQS.ReceiptHandle := "h2" |};
                               {| SNSSQS.Body := "third"; SNSSQS.ReceiptHandle := "h3" |} ]),
                     SimAws.service0))
    by (vm_compute; reflexivity).
  destruct (receive_parses_then_deletes_in_order
              SimAws.body_as_message (fun _ : unit => false)
              "customers" _ SimAws.strict_envelope tt 10 _ _ _ _ Hurl Hrecv Hdel)
    as (_ & _ & H).
  apply (H [ {| SNSSQS.Body := "first"; SNSSQS.ReceiptHandle := "h1" |} ]
           ["first"]
           {| SNSSQS.Body := "broken"; SNSSQS.ReceiptHandle := "h2" |}
           [ {| SNSSQS.Body := "third"; SNSSQS.ReceiptHandle := "h3" |} ]).
  - reflexivity.
  - repeat constructor.
  - reflexivity.
Defined.

(** The test client on the small message service. *)

Example topic_found_by_suffix :
  (SNSSQS.get_topic_arn "orders" (SimAws.fresh SimAws.service0)).1
  = SNSSQS.Done (SimAws.topic_arn_of "new-orders").
Proof. vm_compute. reflexivity. Qed.

Example topic_missing :
  (SNSSQS.get_topic_arn "payments" (SimAws.fresh SimAws.service0)).1
  = SNSSQS.Fail (SNSSQS.TopicDoesNotExist "payments").
Proof. vm_compute. reflexivity. Qed.

Example create_topic_twice_creates_once :
  SNSSQS.requests
    (SNSSQS.create_topic "payments.fifo" true
       (SNSSQS.create_topic "payments.fifo" true (SimAws.fresh SimAws.service0)).2).2
  = [ SNSSQS.ListTopics;
      SNSSQS.CreateTopic "payments.fifo" SNSSQS.fifo_topic_attributes;
      SNSSQS.ListTopics ].
Proof. vm_compute. reflexivity. Qed.

Example create_queue_when_missing :
  SNSSQS.create_queue "payments" false (SimAws.fresh SimAws.service0)
  = (SNSSQS.Done (SimAws.queue_arn_of "payments"),
     (SNSSQS.create_queue "payments" false (SimAws.fresh SimAws.service0)).2)
  /\ SNSSQS.requests
       (SNSSQS.create_queue "payments" false (SimAws.fresh SimAws.service0)).2
     = [ SNSSQS.GetQueueUrl "payments";
         SNSSQS.CreateQueue "payments" ∅;
         SNSSQS.GetQueueUrl "payments";
         SNSSQS.GetQueueAttributes (SimAws.queue_url_of "payments") ["QueueArn"] ].
Proof. split; vm_compute; reflexivity. Qed.

Example create_queue_when_present :
  SNSSQS.requests
    (SNSSQS.create_queue "customers" false (SimAws.fresh SimAws.service0)).2
  = [ SNSSQS.GetQueueUrl "customers";
      SNSSQS.GetQueueAttributes (SimAws.queue_url_of "customers") ["QueueArn"] ].
Proof. vm_compute. reflexivity. Qed.

Example unknown_queue :
  (SNSSQS.get_queue_arn "payments" (SimAws.fresh SimAws.service0)).1
  = SNSSQS.Fail
      (SNSSQS.QueueDoesNotExist "payments" "AWS.SimpleQueueService.NonExistentQueue").
Proof. vm_compute. reflexivity. Qed.

Example receive_all :
  (SNSSQS.receive SimAws.body_as_message (fun _ : unit => false) "customers"
     SimAws.plain_envelope tt 10 (SimAws.fresh SimAws.service0)).1
  = SNSSQS.Done ["first"; "broken"; "third"]
  /\ SimAws.inbox
       (SNSSQS.aws
          (SNSSQS.receive SimAws.body_as_message (fun _ : unit => false) "customers"
             SimAws.plain_envelope tt 10 (SimAws.fresh SimAws.service0)).2)
     !! SimAws.queue_url_of "customers" = Some [].
Proof. split; vm_compute; reflexivity. Qed.

Example publish_to_missing_topic :
  SNSSQS.requests
    (SNSSQS.publish "payments" "paid" SimAws.plain_envelope None None None
       (SimAws.fresh SimAws.service0)).2
  = [SNSSQS.ListTopics].
Proof. vm_compute. reflexivity. Qed.

Example publish_drops_empty_options :
  SNSSQS.requests
    (SNSSQS.publish "new-orders" "order" SimAws.plain_envelope (Some ∅) (Some "")
       (Some "group-1") (SimAws.fresh SimAws.service0)).2
  = [ SNSSQS.ListTopics;
      SNSSQS.Publish
        {| SNSSQS.TopicArn := SimAws.topic_arn_of "new-orders";
           SNSSQS.Message := "order";
           SNSSQS.MessageAttributes := None;
           SNSSQS.MessageDeduplicationId := None;
           SNSSQS.MessageGroupId := Some "group-1" |} ].
Proof. vm_compute. reflexivity. Qed.
